(** * TRWebSocketController: session, slot table, dispatcher and news reassembly

    A shallow embedding of [TRWebSocketController.js] (release 1.0, October
    2017) and the properties of its request-identifier table, its inbound
    message dispatcher and its news-fragment reassembler.  The repository
    also holds the September 2017 revision of the file; where the two
    differ (the envelope key, the [try]/[catch] inside
    [_processNewsEnvelope]) the October revision is the one modelled.

    Conventions of the embedding.
    - The controller object and the two tables it closes over ([_requestIDs],
      [_newsEnvelope]) form one record, threaded through every method.
    - What a method does to the outside world (a call of an application
      callback, a text frame handed to the socket) is recorded, in order, in
      a list of [Event]s.
    - A JavaScript exception is an abrupt completion [Throw e]; the state
      reached and the events produced before the throw are kept, as they are
      in the browser.
    - Protocol messages are records whose fields are optional: an absent
      field reads as [undefined], and reading a property of [undefined]
      throws a [TypeError] as it does in JavaScript.  Numbers are integers.
    - [JSON.parse], [atob] and [pako.inflate] are not part of the controller;
      they are parameters of the development.
    - An application callback returns normally, and so does the socket's
      [send]; the [console.log] calls of the two handlers are not recorded. *)

From Stdlib Require Import ZArith NArith Ascii String Lia.
From stdpp Require Import gmap strings list fin_maps.

Set Warnings "-register-all".

Local Open Scope string_scope.
Local Open Scope Z_scope.
Local Open Scope list_scope.

(** ** Data model *)

(** Application functions handed to [onStatus], [onMarketData] and [onNews]
    are told apart by a number; calling one is recorded as an event. *)
Definition userfn := nat.

(** A function value the controller may store as a processing callback:
    an application function, or its own method [_processNewsEnvelope]. *)
Inductive jsfun :=
| UserFn (f : userfn)
| ProcessNewsEnvelope.

(** The values a callback slot can hold. *)
Inductive cbval :=
| Null
| Undefined
| Fn (f : jsfun).

(** [isCallback(methodName)]: [typeof methodName == "function"]. *)
Definition isCallback (v : cbval) : bool :=
  match v with Fn _ => true | _ => false end.

(** The value of a field that holds [null] or an application function. *)
Definition cb_of (o : option userfn) : cbval :=
  match o with Some f => Fn (UserFn f) | None => Null end.

(** An entry of [_requestIDs]: [{used, processingCb}]. *)
Record Slot := mkSlot { used : bool; processingCb : cbval }.

(** An entry of [_newsEnvelope]: [{fragments, totalSize}].  [fragments] is a
    binary string, one character per byte. *)
Record Envelope := mkEnvelope { fragments : string; totalSize : Z }.

Record StateT := mkState { Stream : option string; Data : option string }.
Record KeyT := mkKey { Name : option string }.
Record FieldsT := mkFields {
  FRAGMENT : option string;
  FRAG_NUM : option Z;
  TOT_SIZE : option Z;
  GUID : option string;
  MRN_SRC : option string
}.

(** An inbound protocol message, one element of a frame's array. *)
Record Msg := mkMsg {
  Type_ : option string;
  Domain : option string;
  Id : option Z;
  State : option StateT;
  Key : option KeyT;
  Fields : option FieldsT
}.

(** [_loginParams].  The constructor creates [user], [appID] and [position];
    [connect] and [_login] use [user], [appId] and [position], so [appId] is
    [undefined] until [connect] has run. *)
Record LoginParams := mkLoginParams {
  user : string; appId : option string; position : string
}.

(** The controller: the fields of [this] and the two private tables. *)
Record Controller := mkController {
  _loggedIn : bool;
  _statusCb : option userfn;       (* [null] or an application function *)
  _marketDataCb : option userfn;
  _newsStoryCb : option userfn;
  _msgCb : cbval;
  _loginParams : LoginParams;
  ws : bool;
  _requestIDs : list Slot;
  _newsEnvelope : gmap string Envelope
}.

(** The parsed contents of a news story: a JSON document. *)
Inductive json :=
| JNull
| JBool (b : bool)
| JNum (n : Z)
| JStr (s : string)
| JArr (l : list json)
| JObj (members : list (string * json)).

(** Exceptions the controller's code can meet. *)
Inductive exn :=
| TypeError (property : string)   (* a property read on [undefined] *)
| SyntaxError                     (* [JSON.parse] *)
| InvalidCharacterError           (* [atob] *)
| InflateError.                   (* [zlib.pako.inflate] *)

(** [TRWebSocketController.prototype.status]. *)
Inductive Status :=
| processingError
| connected
| disconnected
| loginResponse
| msgStatus.

Definition status_code (s : Status) : Z :=
  match s with
  | processingError => 0
  | connected => 1
  | disconnected => 2
  | loginResponse => 3
  | msgStatus => 4
  end.

(** The second argument of the status callback. *)
Inductive Payload :=
| NoPayload                  (* the argument is not passed *)
| Message (m : Msg)          (* the protocol message *)
| ErrorMessage (e : exn).    (* [e.message] *)

(** The objects serialised and handed to the socket. *)
Inductive Outbound :=
| LoginRequest (id : Z) (name : string) (applicationId : option string)
    (pos : string)
| ItemRequest (id : Z) (streaming : bool) (domain : string) (ric : string)
    (service : string)
| CloseRequest (id : Z)
| Pong.

(** What the controller does to its environment. *)
Inductive Event :=
| NewWebSocket (url : string) (protocol : string)
| WsSend (o : Outbound)
| StatusCall (f : userfn) (s : Status) (p : Payload)
| DataCall (f : userfn) (m : Msg)
| NewsCall (f : userfn) (ric : option string) (contents : json).

(** The platform functions the controller calls: [None] is a thrown
    exception.  [JSON_parse_frame] is [JSON.parse] on a frame's text, read at
    the type of protocol frames; [JSON_parse] is [JSON.parse] on a story. *)
Class Platform := {
  JSON_parse_frame : string -> option (list Msg);
  atob : string -> option string;
  inflate : list N -> option string;
  JSON_parse : string -> option json
}.

(** ** Completions and the method monad *)

Inductive Completion (A : Type) :=
| Normal (a : A)
| Throw (e : exn).
Arguments Normal {A} a.
Arguments Throw {A} e.

Record Result (A : Type) := mkResult {
  completion : Completion A;
  final : Controller;
  events : list Event
}.
Arguments mkResult {A} _ _ _.
Arguments completion {A} _.
Arguments final {A} _.
Arguments events {A} _.

Definition M (A : Type) := Controller -> Result A.

Definition ret {A} (a : A) : M A := fun c => mkResult (Normal a) c [].

Definition bind {A B} (m : M A) (k : A -> M B) : M B := fun c =>
  match m c with
  | mkResult (Normal a) c1 ev1 =>
      match k a c1 with
      | mkResult r c2 ev2 => mkResult r c2 (ev1 ++ ev2)
      end
  | mkResult (Throw e) c1 ev1 => mkResult (Throw e) c1 ev1
  end.

Definition throw {A} (e : exn) : M A := fun c => mkResult (Throw e) c [].

(** [try { m } catch (e) { h e }]. *)
Definition try_catch {A} (m : M A) (h : exn -> M A) : M A := fun c =>
  match m c with
  | mkResult (Normal a) c1 ev1 => mkResult (Normal a) c1 ev1
  | mkResult (Throw e) c1 ev1 =>
      match h e c1 with
      | mkResult r c2 ev2 => mkResult r c2 (ev1 ++ ev2)
      end
  end.

Definition get : M Controller := fun c => mkResult (Normal c) c [].
Definition modify (f : Controller -> Controller) : M unit :=
  fun c => mkResult (Normal tt) (f c) [].
Definition emit (e : Event) : M unit := fun c => mkResult (Normal tt) c [e].

(** A platform call that may throw. *)
Definition call {A} (r : option A) (e : exn) : M A :=
  match r with Some a => ret a | None => throw e end.

Notation "x <- m ;; k" := (bind m (fun x => k))
  (at level 100, m at next level, right associativity).
Notation "m ;;; k" := (bind m (fun _ => k))
  (at level 100, right associativity).

Definition when (b : bool) (m : M unit) : M unit := if b then m else ret tt.

(** [for (...) body]: the elements in order; a throw ends the loop. *)
Fixpoint forEach {A} (l : list A) (body : A -> M unit) : M unit :=
  match l with
  | [] => ret tt
  | x :: rest => body x ;;; forEach rest body
  end.

(** Field updates of [this]. *)
Definition set_loggedIn (b : bool) (c : Controller) : Controller :=
  mkController b (_statusCb c) (_marketDataCb c) (_newsStoryCb c) (_msgCb c)
    (_loginParams c) (ws c) (_requestIDs c) (_newsEnvelope c).
Definition set_statusCb (v : option userfn) (c : Controller) : Controller :=
  mkController (_loggedIn c) v (_marketDataCb c) (_newsStoryCb c) (_msgCb c)
    (_loginParams c) (ws c) (_requestIDs c) (_newsEnvelope c).
Definition set_marketDataCb (v : option userfn) (c : Controller) : Controller :=
  mkController (_loggedIn c) (_statusCb c) v (_newsStoryCb c) (_msgCb c)
    (_loginParams c) (ws c) (_requestIDs c) (_newsEnvelope c).
Definition set_newsStoryCb (v : option userfn) (c : Controller) : Controller :=
  mkController (_loggedIn c) (_statusCb c) (_marketDataCb c) v (_msgCb c)
    (_loginParams c) (ws c) (_requestIDs c) (_newsEnvelope c).
Definition set_msgCb (v : cbval) (c : Controller) : Controller :=
  mkController (_loggedIn c) (_statusCb c) (_marketDataCb c) (_newsStoryCb c) v
    (_loginParams c) (ws c) (_requestIDs c) (_newsEnvelope c).
Definition set_connection (p : LoginParams) (c : Controller) : Controller :=
  mkController (_loggedIn c) (_statusCb c) (_marketDataCb c) (_newsStoryCb c)
    (_msgCb c) p true (_requestIDs c) (_newsEnvelope c).
Definition set_requestIDs (l : list Slot) (c : Controller) : Controller :=
  mkController (_loggedIn c) (_statusCb c) (_marketDataCb c) (_newsStoryCb c)
    (_msgCb c) (_loginParams c) (ws c) l (_newsEnvelope c).
Definition set_newsEnvelope (m : gmap string Envelope) (c : Controller)
  : Controller :=
  mkController (_loggedIn c) (_statusCb c) (_marketDataCb c) (_newsStoryCb c)
    (_msgCb c) (_loginParams c) (ws c) (_requestIDs c) m.

(** ** The request-identifier table *)

(** [_requestIDs[id]]: the entry, or [undefined] ([None]) when [id] is not an
    index of the array. *)
Definition slot_at (l : list Slot) (id : option Z) : option Slot :=
  match id with
  | Some z => if 0 <=? z then l !! Z.to_nat z else None
  | None => None
  end.

(** [_requestIDs[id].field = ...] on an entry that exists. *)
Definition update_slot (l : list Slot) (id : option Z) (s : Slot)
  : list Slot :=
  match id with
  | Some z => if 0 <=? z then <[Z.to_nat z := s]> l else l
  | None => l
  end.

Definition free (s : Slot) : Prop := used s = false.

#[global] Instance free_dec (s : Slot) : Decision (free s).
Proof. unfold free. apply _. Defined.

(** [_getID]: retrieve the next available ID from the ID table. *)
Definition _getID : M Z := fun c =>
  match list_find free (_requestIDs c) with
  | Some (i, _) =>
      mkResult (Normal (Z.of_nat i))
        (set_requestIDs (<[i := mkSlot true Null]> (_requestIDs c)) c) []
  | None =>
      mkResult (Normal (Z.of_nat (length (_requestIDs c) + 1) - 1))
        (set_requestIDs (_requestIDs c ++ [mkSlot true Null]) c) []
  end.

(** [_removeID]: flag the request ID to be removed (available). *)
Definition _removeID (id : option Z) : M bool := fun c =>
  match slot_at (_requestIDs c) id with
  | None => mkResult (Throw (TypeError "used")) c []
  | Some s =>
      if used s
      then mkResult (Normal true)
             (set_requestIDs
                (update_slot (_requestIDs c) id (mkSlot false (processingCb s)))
                c) []
      else mkResult (Normal false) c []
  end.

(** [_getAvailableStreams]: every index of the table but the first. *)
Definition _getAvailableStreams : M (list Z) := fun c =>
  mkResult
    (Normal (Z.of_nat <$> filter (fun i => (0 < i)%nat)
                            (seq 0 (length (_requestIDs c)))))
    c [].

(** [_setCallback]: define the processing callback of a request. *)
Definition _setCallback (id : option Z) (cb : cbval) : M unit := fun c =>
  match slot_at (_requestIDs c) id with
  | Some s =>
      mkResult (Normal tt)
        (set_requestIDs (update_slot (_requestIDs c) id (mkSlot (used s) cb)) c)
        []
  | None => mkResult (Normal tt) c []
  end.

(** [_getCallback]: the processing callback of a request, [undefined] when
    the table has no such entry. *)
Definition _getCallback (id : option Z) : M cbval := fun c =>
  match slot_at (_requestIDs c) id with
  | Some s => mkResult (Normal (processingCb s)) c []
  | None => mkResult (Normal Undefined) c []
  end.

(** ** The news envelopes

    [_newsEnvelope] is a plain object used as a map.  Every key the
    controller uses is made by [envelope_key] and holds two colons, so none
    is the name of a property the object inherits: a finite map from strings
    is a faithful model. *)

Definition _getNewsEnvelope (key : string) : M (option Envelope) := fun c =>
  mkResult (Normal (_newsEnvelope c !! key)) c [].

Definition _setNewsEnvelope (key : string) (envelope : Envelope) : M unit :=
  modify (fun c => set_newsEnvelope (<[key := envelope]> (_newsEnvelope c)) c).

Definition _deleteNewsEnvelope (key : string) : M unit :=
  modify (fun c => set_newsEnvelope (delete key (_newsEnvelope c)) c).

(** [new TRWebSocketController()]. *)
Definition TRWebSocketController : Controller :=
  mkController false None None None Null (mkLoginParams "" None "") false [] ∅.

(** ** JavaScript operators at the types of the protocol *)

(** [v === "literal"] on a string-or-undefined value (on these values the
    loose [==] of the [Status] branch is the same test). *)
Definition str_is (v : option string) (literal : string) : bool :=
  bool_decide (v = Some literal).

(** The string a string-or-undefined value concatenates as. *)
Definition ToString (v : option string) : string :=
  match v with Some s => s | None => "undefined" end.

(** [a > b] with a number-or-undefined left operand: a comparison with
    [undefined] is false. *)
Definition js_gt (a : option Z) (b : Z) : bool :=
  match a with Some n => b <? n | None => false end.

(** [fragment.split('').map(x => x.charCodeAt(0))], then [new Uint8Array]. *)
Definition charCodes (s : string) : list N :=
  (fun ch => N_of_ascii ch) <$> list_ascii_of_string s.
Definition Uint8Array (l : list N) : list N := (fun n => n mod 256)%N <$> l.

Definition MRN_DOMAIN : string := "NewsTextAnalytics".

(** [name + ":" + src + ":" + guid]. *)
Definition story_key (name src guid : option string) : string :=
  ToString name +:+ ":" +:+ ToString src +:+ ":" +:+ ToString guid.

(** [msg.Key.Name + ":" + msg.Fields.MRN_SRC + ":" + msg.Fields.GUID]: the
    key under which a news update's envelope is filed. *)
Definition envelope_key (k : KeyT) (fields : FieldsT) : string :=
  story_key (Name k) (MRN_SRC fields) (GUID fields).

(** ** Methods *)

Section Methods.
Context `{Platform}.

(** [_send]: send a packet of data down the WebSocket channel. *)
Definition _send (o : Outbound) : M unit :=
  c <- get ;; when (ws c) (emit (WsSend o)).

(** [if (this.isCallback(this._statusCb)) this._statusCb(code, msg)]. *)
Definition report (s : Status) (p : Payload) : M unit :=
  c <- get ;;
  match _statusCb c with
  | Some f => emit (StatusCall f s p)
  | None => ret tt
  end.

(** [connect(server, user, appId="256", position="127.0.0.1")]. *)
Definition connect (server user : string) (appId position : option string)
  : M unit :=
  emit (NewWebSocket ("ws://" +:+ server +:+ "/WebSocket") "tr_json2") ;;;
  modify (set_connection
            (mkLoginParams user
               (Some (match appId with Some a => a | None => "256" end))
               (match position with Some p => p | None => "127.0.0.1" end))).

(** [requestData(ric, serviceName, streaming=true, domain="MarketPrice")]. *)
Definition requestData (ric serviceName : string) (streaming : bool)
    (domain : string) : M Z :=
  c <- get ;;
  if negb (_loggedIn c) then ret 0
  else
    id <- _getID ;;
    _setCallback (Some id) (cb_of (_marketDataCb c)) ;;;
    _send (ItemRequest id streaming domain ric serviceName) ;;;
    ret id.

(** [requestNews(serviceName, ric="MRN_STORY")]. *)
Definition requestNews (serviceName ric : string) : M Z :=
  id <- requestData ric serviceName true MRN_DOMAIN ;;
  _setCallback (Some id) (Fn ProcessNewsEnvelope) ;;;
  ret id.

(** [closeRequest(id)]. *)
Definition closeRequest (id : Z) : M unit :=
  _send (CloseRequest id) ;;;
  _removeID (Some id) ;;;
  ret tt.

(** [closeAllRequests()]. *)
Definition closeAllRequests : M unit :=
  openStreams <- _getAvailableStreams ;;
  forEach openStreams closeRequest.

(** [onStatus(f)], [onMarketData(f)], [onNews(f)]: the argument is an
    application function or ([None]) a value that is not a function. *)
Definition onStatus (f : option userfn) : M unit :=
  match f with
  | Some g => modify (set_statusCb (Some g))
  | None => ret tt
  end.

Definition onMarketData (f : option userfn) : M unit :=
  match f with
  | Some g => modify (set_marketDataCb (Some g))
  | None => ret tt
  end.

Definition onNews (f : option userfn) : M unit :=
  match f with
  | Some g => modify (set_newsStoryCb (Some g))
  | None => ret tt
  end.

Definition loggedIn : M bool := c <- get ;; ret (_loggedIn c).

(** [_login]: issue the login request. *)
Definition _login : M unit :=
  id <- _getID ;;
  c <- get ;;
  _send (LoginRequest id (user (_loginParams c)) (appId (_loginParams c))
           (position (_loginParams c))).

(** [_pong]: answer the server's ping. *)
Definition _pong : M unit := _send Pong.

(** [_onOpen]: report the connection and log in. *)
Definition _onOpen : M unit :=
  report connected NoPayload ;;;
  _login.

(** [_onClose]: note and report the lost or refused connection. *)
Definition _onClose : M unit :=
  modify (set_loggedIn false) ;;;
  report disconnected NoPayload.

(** [o.name] where [o] may be [undefined]. *)
Definition prop {A} (o : option A) (name : string) : M A :=
  call o (TypeError name).

(** How the envelope bookkeeping of [_processNewsEnvelope] ends: with a
    [return] (more fragments are awaited) or with the bytes to process. *)
Inductive Assembly :=
| Wait
| Process (fragment : string).

(** [_processNewsEnvelope]: preprocess an MRN envelope before it goes to the
    news callback.  The two [console.log] calls of the handler are not
    recorded. *)
Definition _processNewsEnvelope (msg : Msg) : M unit :=
  try_catch
    (if str_is (Type_ msg) "Update" && str_is (Domain msg) MRN_DOMAIN then
       fields <- prop (Fields msg) "FRAGMENT" ;;
       fragment <- call (atob (ToString (FRAGMENT fields)))
                     InvalidCharacterError ;;
       k <- prop (Key msg) "Name" ;;
       let key := envelope_key k fields in
       a <- (if js_gt (FRAG_NUM fields) 1 then
               envelope <- _getNewsEnvelope key ;;
               match envelope with
               | Some e =>
                   (* [envelope.fragments = envelope.fragments + fragment]
                      changes the object the table holds *)
                   let e' := mkEnvelope (fragments e +:+ fragment)
                               (totalSize e) in
                   _setNewsEnvelope key e' ;;;
                   if Z.of_nat (String.length (fragments e')) <? totalSize e'
                   then ret Wait
                   else _deleteNewsEnvelope key ;;; ret (Process (fragments e'))
               | None => ret (Process fragment)
               end
             else
               (* [fragment.length < msg.Fields.TOT_SIZE], false when
                  [TOT_SIZE] is [undefined] *)
               match TOT_SIZE fields with
               | Some tot =>
                   if Z.of_nat (String.length fragment) <? tot
                   then _setNewsEnvelope key (mkEnvelope fragment tot) ;;;
                        ret Wait
                   else ret (Process fragment)
               | None => ret (Process fragment)
               end) ;;
       match a with
       | Wait => ret tt
       | Process fragment =>
           let charArr := charCodes fragment in
           let binArr := Uint8Array charArr in
           strData <- call (inflate binArr) InflateError ;;
           contents <- call (JSON_parse strData) SyntaxError ;;
           c <- get ;;
           match _newsStoryCb c with
           | Some f => emit (NewsCall f (Name k) contents)
           | None => ret tt
           end
       end
     else ret tt)
    (fun e => report processingError (ErrorMessage e)).

(** [this._msgCb(data)], once [isCallback] has said it is a function. *)
Definition invoke (cb : cbval) (data : Msg) : M unit :=
  match cb with
  | Fn (UserFn f) => emit (DataCall f data)
  | Fn ProcessNewsEnvelope => _processNewsEnvelope data
  | _ => ret tt
  end.

(** The body of the loop of [_onMessage]: one element of the frame. *)
Definition dispatch (data : Msg) : M unit :=
  if str_is (Type_ data) "Ping" then _pong
  else if str_is (Domain data) "Login" then
    st <- prop (State data) "Data" ;;
    modify (set_loggedIn (str_is (Data st) "Ok")) ;;;
    report loginResponse (Message data)
  else if str_is (Type_ data) "Status" then
    st <- prop (State data) "Stream" ;;
    (if str_is (Stream st) "Closed"
     then _removeID (Id data) ;;; ret tt
     else ret tt) ;;;
    report msgStatus (Message data)
  else
    cb <- _getCallback (Id data) ;;
    modify (set_msgCb cb) ;;;
    (if str_is (Type_ data) "Refresh" then
       st <- prop (State data) "Stream" ;;
       if str_is (Stream st) "NonStreaming"
       then _removeID (Id data) ;;; ret tt
       else ret tt
     else ret tt) ;;;
    c <- get ;;
    if isCallback (_msgCb c) then invoke (_msgCb c) data else ret tt.

(** [msg.data] of a WebSocket message event. *)
Inductive MessageData :=
| TextData (data : string)
| OtherData.                (* a Blob or an ArrayBuffer *)

(** [_onMessage]: every message received from the server.  The
    [console.log] of the handler is not recorded. *)
Definition _onMessage (msg : MessageData) : M unit :=
  match msg with
  | TextData data =>
      if (0 <? String.length data)%nat then
        try_catch
          (result <- call (JSON_parse_frame data) SyntaxError ;;
           forEach result dispatch)
          (fun e => report processingError (ErrorMessage e))
      else ret tt
  | OtherData => ret tt
  end.

End Methods.

(** ** Runs of table operations and of the reassembler *)

(** A caller's use of the table: one allocation or one release. *)
Inductive TableOp :=
| Allocate
| Release (id : Z).

(** One operation: the controller it leaves, and the index an allocation
    returned.  A release that throws leaves the table as it was and the
    caller goes on. *)
Definition table_step (op : TableOp) (c : Controller)
  : Controller * option Z :=
  match op with
  | Allocate =>
      let r := _getID c in
      (final r, match completion r with Normal i => Some i | Throw _ => None end)
  | Release id => (final (_removeID (Some id) c), None)
  end.

(** The indices the allocations of a run return, in order. *)
Fixpoint allocated (ops : list TableOp) (c : Controller) : list Z :=
  match ops with
  | [] => []
  | op :: rest =>
      let '(c', r) := table_step op c in
      match r with
      | Some i => i :: allocated rest c'
      | None => allocated rest c'
      end
  end.

(** The envelope-table invariant of one entry. *)
Definition envelope_ok (e : Envelope) : Prop :=
  Z.of_nat (String.length (fragments e)) <= totalSize e.

(** The controller after a sequence of messages went through the
    reassembler, and the events of the whole sequence. *)
Fixpoint reassemble `{Platform} (msgs : list Msg) (c : Controller)
  : Controller * list Event :=
  match msgs with
  | [] => (c, [])
  | m :: rest =>
      let r := _processNewsEnvelope m c in
      let '(c', ev) := reassemble rest (final r) in
      (c', events r ++ ev)
  end.

(** ** An executable platform

    Stand-ins for the browser's functions, so that the methods can be run on
    concrete frames: a base64 decoder, an inflater for zlib streams made of
    one stored block, and a parser for the JSON texts whose numbers are
    integers and whose strings have no escapes.  Each refuses what it does
    not handle. *)
Module Demo.

Local Open Scope N_scope.

(** *** For [atob]: forgiving base64 decoding *)

Definition is_space (ch : ascii) : bool :=
  let n := N_of_ascii ch in
  (n =? 9) || (n =? 10) || (n =? 12) || (n =? 13) || (n =? 32).

Definition sextet (ch : ascii) : option N :=
  let n := N_of_ascii ch in
  if (65 <=? n) && (n <=? 90) then Some (n - 65)
  else if (97 <=? n) && (n <=? 122) then Some (n - 71)
  else if (48 <=? n) && (n <=? 57) then Some (n + 4)
  else if n =? 43 then Some 62
  else if n =? 47 then Some 63
  else None.

Fixpoint sextets (l : list ascii) : option (list N) :=
  match l with
  | [] => Some []
  | ch :: rest =>
      match sextet ch, sextets rest with
      | Some v, Some vs => Some (v :: vs)
      | _, _ => None
      end
  end.

(** Four sextets give three bytes; a last group of three gives two, of two
    gives one, and a single left-over sextet is an error. *)
Fixpoint octets (l : list N) : option (list N) :=
  match l with
  | [] => Some []
  | [_] => None
  | [a; b] => Some [a * 4 + b / 16]
  | [a; b; c] => Some [a * 4 + b / 16; (b mod 16) * 16 + c / 4]
  | a :: b :: c :: d :: rest =>
      match octets rest with
      | Some bytes =>
          Some (a * 4 + b / 16 :: (b mod 16) * 16 + c / 4
                :: (c mod 4) * 64 + d :: bytes)
      | None => None
      end
  end.

Definition is_pad (ch : ascii) : bool := N_of_ascii ch =? 61.

(** With a length that is a multiple of four, one or two final [=] go. *)
Definition strip_padding (l : list ascii) : list ascii :=
  if (N.of_nat (length l) mod 4 =? 0) then
    match rev l with
    | p1 :: p2 :: r =>
        if is_pad p1 then if is_pad p2 then rev r else rev (p2 :: r) else l
    | _ => l
    end
  else l.

Definition base64_decode (data : string) : option string :=
  let l := strip_padding
             (filter (fun ch => is_space ch = false) (list_ascii_of_string data)) in
  match sextets l with
  | Some vs =>
      match octets vs with
      | Some bytes => Some (string_of_list_ascii (ascii_of_N <$> bytes))
      | None => None
      end
  | None => None
  end.

(** *** For [inflate]: a zlib stream holding one stored block *)

Definition adler32 (data : list N) : N :=
  let '(a, b) :=
    fold_left (fun '(a, b) x =>
                 let a' := (a + x) mod 65521 in (a', (b + a') mod 65521))
      data (1, 0) in
  b * 65536 + a.

Definition big_endian (l : list N) : N := fold_left (fun acc x => acc * 256 + x) l 0.

Definition inflate_stored (bin : list N) : option string :=
  match bin with
  | cmf :: flg :: hdr :: l0 :: l1 :: n0 :: n1 :: rest =>
      let len := l0 + 256 * l1 in
      let body := take (N.to_nat len) rest in
      let trailer := drop (N.to_nat len) rest in
      if (cmf =? 120) && ((cmf * 256 + flg) mod 31 =? 0)
         && (N.land flg 32 =? 0) && (hdr =? 1)
         && (n0 + 256 * n1 =? 65535 - len)
         && (N.of_nat (length rest) =? len + 4)
         && (big_endian trailer =? adler32 body)
         && forallb (fun x => x <? 128) body
      then Some (string_of_list_ascii (ascii_of_N <$> body))
      else None
  | _ => None
  end.

(** *** For [JSON.parse] *)

Definition is_json_space (ch : ascii) : bool :=
  let n := N_of_ascii ch in
  (n =? 9) || (n =? 10) || (n =? 13) || (n =? 32).

Definition is_digit (ch : ascii) : bool :=
  let n := N_of_ascii ch in (48 <=? n) && (n <=? 57).

Definition is_quote (ch : ascii) : bool := N_of_ascii ch =? 34.

Fixpoint skip_space (s : list ascii) : list ascii :=
  match s with
  | ch :: rest => if is_json_space ch then skip_space rest else s
  | [] => []
  end.

Fixpoint digits (s : list ascii) (acc : Z) : Z * list ascii :=
  match s with
  | ch :: rest =>
      if is_digit ch
      then digits rest (acc * 10 + Z.of_N (N_of_ascii ch - 48))%Z
      else (acc, s)
  | [] => (acc, [])
  end.

(** An integer: no leading zero, no fraction, no exponent. *)
Definition number (s : list ascii) : option (Z * list ascii) :=
  match s with
  | d :: rest =>
      if is_digit d then
        let '(n, r) := digits s 0%Z in
        let plain :=
          match r with
          | ch :: _ =>
              let k := N_of_ascii ch in
              negb ((k =? 46) || (k =? 69) || (k =? 101))
          | [] => true
          end in
        let leading_zero :=
          (N_of_ascii d =? 48) && negb (length s - length r =? 1)%nat in
        if plain && negb leading_zero then Some (n, r) else None
      else None
  | [] => None
  end.

(** The characters of a string up to its closing quote; escapes and control
    characters are refused. *)
Fixpoint chars (s : list ascii) : option (string * list ascii) :=
  match s with
  | [] => None
  | ch :: rest =>
      if is_quote ch then Some (EmptyString, rest)
      else if (N_of_ascii ch =? 92) || (N_of_ascii ch <? 32) then None
      else match chars rest with
           | Some (str, r) => Some (String ch str, r)
           | None => None
           end
  end.

Local Open Scope char_scope.

Fixpoint value (fuel : nat) (s : list ascii) : option (json * list ascii) :=
  match fuel with
  | O => None
  | S fuel =>
      match skip_space s with
      | "n" :: "u" :: "l" :: "l" :: r => Some (JNull, r)
      | "t" :: "r" :: "u" :: "e" :: r => Some (JBool true, r)
      | "f" :: "a" :: "l" :: "s" :: "e" :: r => Some (JBool false, r)
      | "[" :: r =>
          match skip_space r with
          | "]" :: r' => Some (JArr [], r')
          | _ =>
              match elements fuel r with
              | Some (l, r') => Some (JArr l, r')
              | None => None
              end
          end
      | "{" :: r =>
          match skip_space r with
          | "}" :: r' => Some (JObj [], r')
          | _ =>
              match members fuel r with
              | Some (l, r') => Some (JObj l, r')
              | None => None
              end
          end
      | "-" :: r =>
          match number r with
          | Some (n, r') => Some (JNum (- n), r')
          | None => None
          end
      | ch :: r =>
          if is_quote ch then
            match chars r with
            | Some (str, r') => Some (JStr str, r')
            | None => None
            end
          else
            match number (ch :: r) with
            | Some (n, r') => Some (JNum n, r')
            | None => None
            end
      | [] => None
      end
  end
with elements (fuel : nat) (s : list ascii)
  : option (list json * list ascii) :=
  match fuel with
  | O => None
  | S fuel =>
      match value fuel s with
      | Some (v, r) =>
          match skip_space r with
          | "," :: r' =>
              match elements fuel r' with
              | Some (vs, r'') => Some (v :: vs, r'')
              | None => None
              end
          | "]" :: r' => Some ([v], r')
          | _ => None
          end
      | None => None
      end
  end
with members (fuel : nat) (s : list ascii)
  : option (list (string * json) * list ascii) :=
  match fuel with
  | O => None
  | S fuel =>
      match skip_space s with
      | q :: r =>
          if is_quote q then
            match chars r with
            | Some (name, r1) =>
                match skip_space r1 with
                | ":" :: r2 =>
                    match value fuel r2 with
                    | Some (v, r3) =>
                        match skip_space r3 with
                        | "," :: r4 =>
                            match members fuel r4 with
                            | Some (ms, r5) => Some ((name, v) :: ms, r5)
                            | None => None
                            end
                        | "}" :: r4 => Some ([(name, v)], r4)
                        | _ => None
                        end
                    | None => None
                    end
                | _ => None
                end
            | None => None
            end
          else None
      | [] => None
      end
  end.

Definition parse (text : string) : option json :=
  let s := list_ascii_of_string text in
  match value (2 * length s + 2) s with
  | Some (v, r) =>
      match skip_space r with
      | [] => Some v
      | _ => None
      end
  | None => None
  end.

(** *** A frame's text read as protocol messages *)

(** [o.name] after [JSON.parse]: of members with one name the last counts. *)
Fixpoint member (name : string) (ms : list (string * json)) : option json :=
  match ms with
  | [] => None
  | (k, v) :: rest =>
      match member name rest with
      | Some v' => Some v'
      | None => if String.eqb k name then Some v else None
      end
  end.

(** An optional member of the expected type; a member of another type puts
    the frame outside the messages this development covers. *)
Definition opt_string (v : option json) : option (option string) :=
  match v with
  | None => Some None
  | Some (JStr s) => Some (Some s)
  | Some _ => None
  end.

Definition opt_int (v : option json) : option (option Z) :=
  match v with
  | None => Some None
  | Some (JNum n) => Some (Some n)
  | Some _ => None
  end.

Definition opt_object {A} (read : list (string * json) -> option A)
    (v : option json) : option (option A) :=
  match v with
  | None => Some None
  | Some (JObj ms) => Some <$> read ms
  | Some _ => None
  end.

Local Open Scope string_scope.

Definition read_state (ms : list (string * json)) : option StateT :=
  s ← opt_string (member "Stream" ms);
  d ← opt_string (member "Data" ms);
  Some (mkState s d).

Definition read_key (ms : list (string * json)) : option KeyT :=
  n ← opt_string (member "Name" ms);
  Some (mkKey n).

Definition read_fields (ms : list (string * json)) : option FieldsT :=
  f ← opt_string (member "FRAGMENT" ms);
  n ← opt_int (member "FRAG_NUM" ms);
  t ← opt_int (member "TOT_SIZE" ms);
  g ← opt_string (member "GUID" ms);
  src ← opt_string (member "MRN_SRC" ms);
  Some (mkFields f n t g src).

Definition read_msg (v : json) : option Msg :=
  match v with
  | JObj ms =>
      t ← opt_string (member "Type" ms);
      d ← opt_string (member "Domain" ms);
      i ← opt_int (member "Id" ms);
      st ← opt_object read_state (member "State" ms);
      k ← opt_object read_key (member "Key" ms);
      f ← opt_object read_fields (member "Fields" ms);
      Some (mkMsg t d i st k f)
  | _ => None
  end.

Definition parse_frame (text : string) : option (list Msg) :=
  match parse text with
  | Some (JArr l) => mapM read_msg l
  | _ => None
  end.

(** A quoted JSON string, for writing frames. *)
Definition q (s : string) : string :=
  String (ascii_of_N 34) s +:+ String (ascii_of_N 34) EmptyString.

Definition platform : Platform := {|
  JSON_parse_frame := parse_frame;
  atob := base64_decode;
  inflate := inflate_stored;
  JSON_parse := parse
|}.

End Demo.

(** ** Vocabulary of the properties *)

(** [m] is a news update the reassembler takes up: an [Update] of the news
    domain with fields [fields] and key object [ky], whose [FRAGMENT]
    decodes to [frag]. *)
Definition news_update `{Platform} (m : Msg) (ky : KeyT) (fields : FieldsT)
    (frag : string) : Prop :=
  Type_ m = Some "Update" /\ Domain m = Some MRN_DOMAIN
  /\ Fields m = Some fields /\ Key m = Some ky
  /\ atob (ToString (FRAGMENT fields)) = Some frag.

(** [m] is a continuation filed under [k] whose fragment, appended to the
    envelope [e], reaches the declared total size. *)
Definition completes `{Platform} (m : Msg) (k : string) (e : Envelope)
  : Prop :=
  exists ky fields frag,
    news_update m ky fields frag /\ envelope_key ky fields = k
    /\ js_gt (FRAG_NUM fields) 1 = true
    /\ totalSize e <= Z.of_nat (String.length (fragments e +:+ frag)).

(** [m] is fragment number [n] of the story [ky], [src], [guid], carrying
    the base64 text [b64]. *)
Definition is_fragment (ky : KeyT) (src guid : option string) (n : Z)
    (b64 : string) (m : Msg) : Prop :=
  Type_ m = Some "Update" /\ Domain m = Some MRN_DOMAIN /\ Key m = Some ky
  /\ exists fields,
       Fields m = Some fields /\ FRAGMENT fields = Some b64
       /\ FRAG_NUM fields = Some n /\ MRN_SRC fields = src
       /\ GUID fields = guid.

(** The total size [m] declares in its [TOT_SIZE] field. *)
Definition declared_size (m : Msg) (tot : Z) : Prop :=
  exists fields, Fields m = Some fields /\ TOT_SIZE fields = Some tot.

(** The messages [ms] are the fragments numbered [n], [n+1], ... of one
    story, carrying the base64 texts [b64s] in this order. *)
Fixpoint is_story_from (ky : KeyT) (src guid : option string) (n : Z)
    (b64s : list string) (ms : list Msg) : Prop :=
  match b64s, ms with
  | [], [] => True
  | b :: bs, m :: ms' =>
      is_fragment ky src guid n b m /\ is_story_from ky src guid (n + 1) bs ms'
  | _, _ => False
  end.

(** The bytes of the fragments, joined. *)
Definition joined (ds : list string) : string :=
  fold_right String.append EmptyString ds.

(** A message the dispatcher treats as data: neither a ping, nor a login
    response, nor a status message. *)
Definition data_message (m : Msg) : Prop :=
  Type_ m <> Some "Ping" /\ Domain m <> Some "Login"
  /\ Type_ m <> Some "Status".

(** [m] is not a news update filed under [k]. *)
Definition foreign `{Platform} (k : string) (m : Msg) : Prop :=
  forall ky fields frag,
    news_update m ky fields frag -> envelope_key ky fields <> k.

(** The fragments of [story] in order, each preceded by the messages of
    the matching element of [gaps]. *)
Fixpoint interleave (gaps : list (list Msg)) (story : list Msg) : list Msg :=
  match gaps, story with
  | gap :: gaps', f :: story' => gap ++ f :: interleave gaps' story'
  | _, _ => []
  end.

(** The table [l'] is the table [l] with some slots freed: the same
    length, the same callbacks, and no slot in use that was free. *)
Definition only_freed (l l' : list Slot) : Prop :=
  Forall2 (fun s s' =>
             processingCb s' = processingCb s
             /\ (used s' = true -> used s = true)) l l'.

(** The controller [c'] has the application callbacks, the login
    parameters and the socket of [c], and its table is that of [c] with
    some slots freed. *)
Definition same_setup (c c' : Controller) : Prop :=
  _statusCb c' = _statusCb c /\ _marketDataCb c' = _marketDataCb c
  /\ _newsStoryCb c' = _newsStoryCb c /\ _loginParams c' = _loginParams c
  /\ ws c' = ws c /\ only_freed (_requestIDs c) (_requestIDs c').

(** ** Sample sessions and messages *)
Module Sample.

(** A session after [connect], a successful login, a snapshot request
    (slot 1) and a news request (slot 2); the application has registered
    the functions 1, 2 and 3 for status, market data and news. *)
Definition session : Controller :=
  mkController true (Some 1%nat) (Some 2%nat) (Some 3%nat) Null
    (mkLoginParams "user" (Some "256") "127.0.0.1") true
    [mkSlot true Null; mkSlot true (Fn (UserFn 2%nat));
     mkSlot true (Fn ProcessNewsEnvelope)]
    ∅.

(** The same application before the server answered the login. *)
Definition connecting : Controller :=
  mkController false (Some 1%nat) (Some 2%nat) (Some 3%nat) Null
    (mkLoginParams "user" (Some "256") "127.0.0.1") true
    [mkSlot true Null] ∅.

Definition ping : Msg := mkMsg (Some "Ping") None None None None None.

Definition login_ok : Msg :=
  mkMsg (Some "Refresh") (Some "Login") (Some 0)
    (Some (mkState (Some "Open") (Some "Ok"))) None None.

Definition login_denied : Msg :=
  mkMsg (Some "Status") (Some "Login") (Some 0)
    (Some (mkState (Some "Closed") (Some "Suspect"))) None None.

(** A message with the login domain that is a ping. *)
Definition login_ping : Msg :=
  mkMsg (Some "Ping") (Some "Login") (Some 0)
    (Some (mkState (Some "Open") (Some "Ok"))) None None.

(** A message with the login domain and no [State]. *)
Definition login_stateless : Msg :=
  mkMsg (Some "Refresh") (Some "Login") (Some 0) None None None.


Definition late_update : Msg :=
  mkMsg (Some "Update") (Some "MarketPrice") (Some 1) None
    (Some (mkKey (Some "TRI.N"))) None.

(** A status message that closes a stream the table does not have. *)
Definition closed_unknown : Msg :=
  mkMsg (Some "Status") (Some "MarketPrice") (Some 9)
    (Some (mkState (Some "Closed") (Some "Suspect"))) None None.

(** A news update on the stream of slot 2. *)
Definition news (frag_num tot_size : Z) (fragment : string) : Msg :=
  mkMsg (Some "Update") (Some "NewsTextAnalytics") (Some 2) None
    (Some (mkKey (Some "MRN_STORY")))
    (Some (mkFields (Some fragment) (Some frag_num) (Some tot_size)
             (Some "guid-1") (Some "SRC"))).

(** A story of 18 bytes, the zlib stream of the text [[1,2,3]], in three
    fragments of 6 bytes. *)
Definition story : list Msg :=
  [news 1 18 "eAEBBwD4"; news 2 18 "/1sxLDIs"; news 3 18 "M10GlQGn"].

(** The second fragment of that story, arriving alone. *)
Definition orphan : Msg := news 2 18 "/1sxLDIs".

(** A news update whose fragment is not base64. *)
Definition garbled : Msg := news 1 18 "!!!!".

(** Frame texts: one that is not JSON, the frame [[ping, closed_unknown,
    ping]], and the frame [[garbled, ping]]. *)
Definition not_json : string := "[{oops".

Definition ping_text : string := "{" +:+ Demo.q "Type" +:+ ":" +:+ Demo.q "Ping" +:+ "}".

Definition closed_unknown_text : string :=
  "{" +:+ Demo.q "Type" +:+ ":" +:+ Demo.q "Status" +:+ ","
  +:+ Demo.q "Domain" +:+ ":" +:+ Demo.q "MarketPrice" +:+ ","
  +:+ Demo.q "Id" +:+ ":9,"
  +:+ Demo.q "State" +:+ ":{" +:+ Demo.q "Stream" +:+ ":" +:+ Demo.q "Closed"
  +:+ "," +:+ Demo.q "Data" +:+ ":" +:+ Demo.q "Suspect" +:+ "}}".

Definition garbled_text : string :=
  "{" +:+ Demo.q "Type" +:+ ":" +:+ Demo.q "Update" +:+ ","
  +:+ Demo.q "Domain" +:+ ":" +:+ Demo.q "NewsTextAnalytics" +:+ ","
  +:+ Demo.q "Id" +:+ ":2,"
  +:+ Demo.q "Key" +:+ ":{" +:+ Demo.q "Name" +:+ ":" +:+ Demo.q "MRN_STORY"
  +:+ "},"
  +:+ Demo.q "Fields" +:+ ":{" +:+ Demo.q "FRAGMENT" +:+ ":" +:+ Demo.q "!!!!"
  +:+ "," +:+ Demo.q "FRAG_NUM" +:+ ":1," +:+ Demo.q "TOT_SIZE" +:+ ":18,"
  +:+ Demo.q "GUID" +:+ ":" +:+ Demo.q "guid-1" +:+ "," +:+ Demo.q "MRN_SRC"
  +:+ ":" +:+ Demo.q "SRC" +:+ "}}".

Definition login_ok_text : string :=
  "{" +:+ Demo.q "Type" +:+ ":" +:+ Demo.q "Refresh" +:+ ","
  +:+ Demo.q "Domain" +:+ ":" +:+ Demo.q "Login" +:+ ","
  +:+ Demo.q "Id" +:+ ":0,"
  +:+ Demo.q "State" +:+ ":{" +:+ Demo.q "Stream" +:+ ":" +:+ Demo.q "Open"
  +:+ "," +:+ Demo.q "Data" +:+ ":" +:+ Demo.q "Ok" +:+ "}}".

Definition failing_frame : string :=
  "[" +:+ ping_text +:+ "," +:+ closed_unknown_text +:+ "," +:+ ping_text
  +:+ "]".

Definition garbled_frame : string :=
  "[" +:+ garbled_text +:+ "," +:+ ping_text +:+ "]".

(** The session after the first fragment of [story] has arrived. *)
Definition midstory : Controller :=
  final (_processNewsEnvelope (H := Demo.platform) (news 1 18 "eAEBBwD4")
           session).

(** The calls that lead from a new controller to [connecting] and on to
    [session]. *)
Definition startup : M unit :=
  onStatus (Some 1%nat) ;;;
  onMarketData (Some 2%nat) ;;;
  onNews (Some 3%nat) ;;;
  connect "wsServer:14002" "user" None None ;;;
  _onOpen.

Definition subscribe : M unit :=
  _onMessage (H := Demo.platform) (TextData ("[" +:+ login_ok_text +:+ "]")) ;;;
  requestData "TRI.N" "ELEKTRON_SERVICE" false "MarketPrice" ;;;
  requestNews "ELEKTRON_SERVICE" "MRN_STORY" ;;;
  ret tt.

End Sample.

(** * Properties *)

(** ** The request-identifier table *)

Section Table.
Implicit Types (c : Controller) (l : list Slot) (s : Slot).

Lemma slot_at_Some l (z : Z) s :
  slot_at l (Some z) = Some s <-> 0 <= z /\ l !! Z.to_nat z = Some s.
Proof.
  unfold slot_at. destruct (Z.leb_spec 0 z); split; intros; try tauto;
    try discriminate; lia.
Qed.

Lemma slot_at_nat l (i : nat) : slot_at l (Some (Z.of_nat i)) = l !! i.
Proof.
  unfold slot_at. destruct (Z.leb_spec 0 (Z.of_nat i)); [|lia].
  by rewrite Nat2Z.id.
Qed.

Lemma update_slot_nat l (i : nat) s :
  update_slot l (Some (Z.of_nat i)) s = <[i := s]> l.
Proof.
  unfold update_slot. destruct (Z.leb_spec 0 (Z.of_nat i)); [|lia].
  by rewrite Nat2Z.id.
Qed.

(** [_getID] never throws, calls nothing, and touches the table only. *)
Lemma _getID_frame c :
  events (_getID c) = []
  /\ final (_getID c) = set_requestIDs (_requestIDs (final (_getID c))) c
  /\ exists i : nat, completion (_getID c) = Normal (Z.of_nat i).
Proof.
  unfold _getID. destruct (list_find free (_requestIDs c)) as [[i s]|]; simpl.
  - repeat split. by exists i.
  - repeat split. exists (length (_requestIDs c)). f_equal. lia.
Qed.

(** When a slot is free, [_getID] takes the first free one. *)
Lemma _getID_reuse c (i : nat) s :
  _requestIDs c !! i = Some s -> free s ->
  (forall (j : nat) s', _requestIDs c !! j = Some s' -> (j < i)%nat -> ~ free s') ->
  completion (_getID c) = Normal (Z.of_nat i)
  /\ _requestIDs (final (_getID c)) = <[i := mkSlot true Null]> (_requestIDs c).
Proof.
  intros Hi Hfree Hmin.
  assert (Hfind : list_find free (_requestIDs c) = Some (i, s))
    by (apply list_find_Some; auto).
  unfold _getID. rewrite Hfind. simpl. done.
Qed.

(** When none is free, [_getID] appends one. *)
Lemma _getID_grow c :
  Forall (fun s => ~ free s) (_requestIDs c) ->
  completion (_getID c) = Normal (Z.of_nat (length (_requestIDs c)))
  /\ _requestIDs (final (_getID c)) = _requestIDs c ++ [mkSlot true Null].
Proof.
  intros Hnone. apply (list_find_None free) in Hnone.
  unfold _getID. rewrite Hnone. simpl. split; [f_equal; lia | done].
Qed.

(** The two cases of [_getID], read off its result. *)
Lemma _getID_cases c :
  exists i : nat,
    completion (_getID c) = Normal (Z.of_nat i)
    /\ ((exists s, _requestIDs c !! i = Some s /\ free s
           /\ (forall (j : nat) s', _requestIDs c !! j = Some s' -> (j < i)%nat -> ~ free s')
           /\ _requestIDs (final (_getID c))
              = <[i := mkSlot true Null]> (_requestIDs c))
        \/ (Forall (fun s => ~ free s) (_requestIDs c)
            /\ i = length (_requestIDs c)
            /\ _requestIDs (final (_getID c))
               = _requestIDs c ++ [mkSlot true Null])).
Proof.
  destruct (list_find free (_requestIDs c)) as [[i s]|] eqn:Hfind.
  - apply list_find_Some in Hfind as (Hi & Hfree & Hmin).
    destruct (_getID_reuse c i s Hi Hfree Hmin) as [Hc Hl].
    exists i. split; [done|]. left. by exists s.
  - apply (list_find_None free) in Hfind.
    destruct (_getID_grow c Hfind) as [Hc Hl].
    exists (length (_requestIDs c)). split; [done|]. by right.
Qed.

(** [_removeID] on an entry that is in use. *)
Lemma _removeID_used c (id : Z) s :
  slot_at (_requestIDs c) (Some id) = Some s -> used s = true ->
  _removeID (Some id) c
  = mkResult (Normal true)
      (set_requestIDs
         (<[Z.to_nat id := mkSlot false (processingCb s)]> (_requestIDs c)) c)
      [].
Proof.
  intros Hs Hu. unfold _removeID. rewrite Hs, Hu.
  apply slot_at_Some in Hs as [Hz _]. unfold update_slot.
  destruct (Z.leb_spec 0 id); [done|lia].
Qed.

(** [_removeID] on an entry that is free already. *)
Lemma _removeID_free c id s :
  slot_at (_requestIDs c) id = Some s -> used s = false ->
  _removeID id c = mkResult (Normal false) c [].
Proof. intros Hs Hu. unfold _removeID. by rewrite Hs, Hu. Qed.

(** [_removeID] on an index the table does not have. *)
Lemma _removeID_unknown c id :
  slot_at (_requestIDs c) id = None ->
  _removeID id c = mkResult (Throw (TypeError "used")) c [].
Proof. intros Hs. unfold _removeID. by rewrite Hs. Qed.

(** A release never takes a free slot back into use. *)
Lemma _removeID_keeps_free c id (i : nat) s :
  _requestIDs c !! i = Some s -> free s ->
  exists s', _requestIDs (final (_removeID id c)) !! i = Some s' /\ free s'.
Proof.
  intros Hi Hfree. unfold _removeID.
  destruct (slot_at (_requestIDs c) id) as [t|] eqn:Ht; simpl; [|eauto].
  destruct (used t) eqn:Hu; simpl; [|eauto].
  destruct id as [z|]; [|discriminate].
  apply slot_at_Some in Ht as [Hz Ht]. unfold update_slot.
  destruct (Z.leb_spec 0 z); [|lia].
  destruct (decide (Z.to_nat z = i)) as [->|Hne].
  - rewrite list_lookup_insert_eq by (by eapply lookup_lt_Some).
    eexists; split; [done|]. done.
  - rewrite list_lookup_insert_ne by done. eauto.
Qed.

(** While slot [i] is free, an allocation returns [i] or a smaller index,
    and a smaller one leaves [i] free. *)
Lemma _getID_below_free c (i : nat) s :
  _requestIDs c !! i = Some s -> free s ->
  exists j : nat,
    completion (_getID c) = Normal (Z.of_nat j) /\ (j <= i)%nat
    /\ ((j < i)%nat ->
        exists s', _requestIDs (final (_getID c)) !! i = Some s' /\ free s').
Proof.
  intros Hi Hfree.
  destruct (_getID_cases c) as (j & Hc & [(t & Hj & Ht & Hmin & Hl)|(Hnone & _)]).
  - exists j. split; [done|].
    assert (j <= i)%nat.
    { destruct (decide (j <= i)%nat); [done|].
      exfalso. apply (Hmin i s Hi); [lia | done]. }
    split; [done|]. intros Hlt. rewrite Hl.
    rewrite list_lookup_insert_ne by lia. eauto.
  - exfalso. rewrite Forall_forall in Hnone.
    apply (Hnone s); [|done]. apply list_elem_of_lookup. eauto.
Qed.

(** The run property behind slot reuse. *)
Lemma allocated_reuses_first ops : forall c (i : nat) s,
  _requestIDs c !! i = Some s -> free s ->
  forall (p : nat) (j : Z),
    allocated ops c !! p = Some j -> Z.of_nat i < j ->
    exists q : nat, (q < p)%nat /\ allocated ops c !! q = Some (Z.of_nat i).
Proof.
  induction ops as [|op ops IH]; intros c i s Hi Hfree p j Hp Hlt.
  - discriminate.
  - destruct op as [|id]; simpl in Hp |- *.
    + destruct (_getID_below_free c i s Hi Hfree) as (k & Hc & Hle & Hkeep).
      rewrite Hc in Hp |- *.
      destruct p as [|p]; simpl in Hp.
      * injection Hp as <-. lia.
      * destruct (decide (k = i)) as [->|Hne].
        -- exists 0%nat. split; [lia | done].
        -- destruct Hkeep as (s' & Hi' & Hfree'); [lia|].
           destruct (IH _ i s' Hi' Hfree' p j Hp Hlt) as (q & Hq & Hres).
           exists (S q). split; [lia | done].
    + destruct (_removeID_keeps_free c (Some id) i s Hi Hfree)
        as (s' & Hi' & Hfree').
      exact (IH _ i s' Hi' Hfree' p j Hp Hlt).
Qed.

End Table.

(** ** Session and dispatcher *)

Ltac run :=
  cbv [bind ret throw try_catch get modify emit call prop when report
       _send _pong _getCallback _getNewsEnvelope _setNewsEnvelope
       _deleteNewsEnvelope invoke].

Lemma str_is_true v lit : str_is v lit = true <-> v = Some lit.
Proof. unfold str_is. apply bool_decide_eq_true. Qed.

Lemma str_is_false v lit : str_is v lit = false <-> v <> Some lit.
Proof. unfold str_is. apply bool_decide_eq_false. Qed.

Section Dispatcher.
Context `{Platform}.
Implicit Types (c : Controller) (m : Msg).

Lemma _onClose_result c :
  _onClose c
  = mkResult (Normal tt) (set_loggedIn false c)
      match _statusCb c with
      | Some f => [StatusCall f disconnected NoPayload]
      | None => []
      end.
Proof. unfold _onClose. run. simpl. by destruct (_statusCb c). Qed.

Lemma requestData_logged_out c ric service streaming domain :
  _loggedIn c = false ->
  requestData ric service streaming domain c = mkResult (Normal 0) c [].
Proof. intros Hl. unfold requestData. run. by rewrite Hl. Qed.

Lemma dispatch_login c m st :
  Type_ m <> Some "Ping" -> Domain m = Some "Login" -> State m = Some st ->
  dispatch m c
  = mkResult (Normal tt) (set_loggedIn (str_is (Data st) "Ok") c)
      match _statusCb c with
      | Some f => [StatusCall f loginResponse (Message m)]
      | None => []
      end.
Proof.
  intros Hping Hdom Hst. unfold dispatch.
  apply str_is_false in Hping. apply str_is_true in Hdom.
  rewrite Hping, Hdom, Hst. run. simpl. by destruct (_statusCb c).
Qed.

End Dispatcher.

(** ** The reassembler *)

Lemma string_append_cons ch (a b : string) :
  String ch a +:+ b = String ch (a +:+ b).
Proof. reflexivity. Qed.

Lemma string_length_append (a b : string) :
  String.length (a +:+ b) = (String.length a + String.length b)%nat.
Proof.
  induction a as [|ch a IH]; [done|].
  rewrite string_append_cons. simpl. by rewrite IH.
Qed.

Lemma string_append_assoc (a b d : string) :
  (a +:+ b) +:+ d = a +:+ (b +:+ d).
Proof.
  induction a as [|ch a IH]; [done|].
  rewrite !string_append_cons. by f_equal.
Qed.

Lemma string_append_empty_r (a : string) : a +:+ EmptyString = a.
Proof.
  induction a as [|ch a IH]; [done|].
  rewrite string_append_cons. by f_equal.
Qed.

Lemma joined_nonempty (ds : list string) :
  ds <> [] -> last ds <> Some EmptyString ->
  (0 < String.length (joined ds))%nat.
Proof.
  induction ds as [|d ds IH]; intros Hne Hlast; [done|].
  simpl. rewrite string_length_append.
  destruct ds as [|d' ds'].
  - destruct d; simpl in *; [congruence | lia].
  - assert (0 < String.length (joined (d' :: ds')))%nat; [|lia].
    apply IH; [done|]. by rewrite last_cons_cons in Hlast.
Qed.

Section Reassembler.
Context `{Platform}.
Implicit Types (c : Controller) (m : Msg) (e : Envelope).

Ltac crunch := repeat (case_match; simpl in *; simplify_eq; try done).

Lemma _processNewsEnvelope_returns m c :
  completion (_processNewsEnvelope m c) = Normal tt.
Proof. unfold _processNewsEnvelope. run. crunch. Qed.

(** The reassembler changes nothing of the controller but the envelopes. *)
Lemma _processNewsEnvelope_frame m c :
  final (_processNewsEnvelope m c)
  = set_newsEnvelope (_newsEnvelope (final (_processNewsEnvelope m c))) c.
Proof. unfold _processNewsEnvelope. run. destruct c. crunch. Qed.

Lemma news_update_guard m ky fields frag :
  news_update m ky fields frag ->
  str_is (Type_ m) "Update" && str_is (Domain m) MRN_DOMAIN = true.
Proof.
  intros (Ht & Hd & _). apply andb_true_iff. by rewrite !str_is_true.
Qed.

(** A first fragment shorter than the declared size opens an envelope. *)
Lemma first_fragment_stored m c ky fields frag tot :
  news_update m ky fields frag ->
  js_gt (FRAG_NUM fields) 1 = false -> TOT_SIZE fields = Some tot ->
  Z.of_nat (String.length frag) < tot ->
  _processNewsEnvelope m c
  = mkResult (Normal tt)
      (set_newsEnvelope
         (<[envelope_key ky fields := mkEnvelope frag tot]> (_newsEnvelope c)) c)
      [].
Proof.
  intros Hm Hn Ht Hlt. pose proof (news_update_guard _ _ _ _ Hm) as Hg.
  destruct Hm as (_ & _ & Hf & Hk & Ha).
  unfold _processNewsEnvelope. rewrite Hg, Hf, Hk. run. rewrite Ha, Hn, Ht.
  destruct (Z.ltb_spec (Z.of_nat (String.length frag)) tot); [done | lia].
Qed.

(** A continuation that leaves the envelope short of its size is kept. *)
Lemma continuation_kept m c ky fields frag e :
  news_update m ky fields frag ->
  js_gt (FRAG_NUM fields) 1 = true ->
  _newsEnvelope c !! envelope_key ky fields = Some e ->
  Z.of_nat (String.length (fragments e +:+ frag)) < totalSize e ->
  _processNewsEnvelope m c
  = mkResult (Normal tt)
      (set_newsEnvelope
         (<[envelope_key ky fields
            := mkEnvelope (fragments e +:+ frag) (totalSize e)]>
            (_newsEnvelope c)) c)
      [].
Proof.
  intros Hm Hn He Hlt. pose proof (news_update_guard _ _ _ _ Hm) as Hg.
  destruct Hm as (_ & _ & Hf & Hk & Ha).
  unfold _processNewsEnvelope. rewrite Hg, Hf, Hk. run. rewrite Ha, Hn, He.
  simpl.
  destruct (Z.ltb_spec (Z.of_nat (String.length (fragments e +:+ frag)))
              (totalSize e)); [done | lia].
Qed.

(** A continuation that fills the envelope removes it and delivers the
    story. *)
Lemma continuation_completes m c ky fields frag e strData contents g :
  news_update m ky fields frag ->
  js_gt (FRAG_NUM fields) 1 = true ->
  _newsEnvelope c !! envelope_key ky fields = Some e ->
  totalSize e <= Z.of_nat (String.length (fragments e +:+ frag)) ->
  inflate (Uint8Array (charCodes (fragments e +:+ frag))) = Some strData ->
  JSON_parse strData = Some contents ->
  _newsStoryCb c = Some g ->
  _processNewsEnvelope m c
  = mkResult (Normal tt)
      (set_newsEnvelope (delete (envelope_key ky fields) (_newsEnvelope c)) c)
      [NewsCall g (Name ky) contents].
Proof.
  intros Hm Hn He Hge Hi Hp Hcb.
  pose proof (news_update_guard _ _ _ _ Hm) as Hg.
  destruct Hm as (_ & _ & Hf & Hk & Ha).
  unfold _processNewsEnvelope. rewrite Hg, Hf, Hk. run. rewrite Ha, Hn, He.
  simpl.
  destruct (Z.ltb_spec (Z.of_nat (String.length (fragments e +:+ frag)))
              (totalSize e)); [lia|].
  simpl. rewrite Hi, Hp. simpl. rewrite Hcb. simpl.
  by rewrite delete_insert_eq.
Qed.

(** A continuation without an envelope is processed on its own: the
    lone fragment goes to [inflate]. *)
Lemma orphan_continuation_processed m c ky fields frag f g :
  news_update m ky fields frag ->
  js_gt (FRAG_NUM fields) 1 = true ->
  _newsEnvelope c !! envelope_key ky fields = None ->
  _statusCb c = Some f -> _newsStoryCb c = Some g ->
  final (_processNewsEnvelope m c) = c
  /\ ((exists err, events (_processNewsEnvelope m c)
                   = [StatusCall f processingError (ErrorMessage err)])
      \/ (exists contents, events (_processNewsEnvelope m c)
                           = [NewsCall g (Name ky) contents])).
Proof.
  intros Hm Hn He Hs Hcb. pose proof (news_update_guard _ _ _ _ Hm) as Hg.
  destruct Hm as (_ & _ & Hf & Hk & Ha).
  unfold _processNewsEnvelope. rewrite Hg, Hf, Hk. run. rewrite Ha, Hn, He.
  simpl.
  destruct (inflate _) as [strData|]; simpl.
  - destruct (JSON_parse strData) as [contents|]; simpl; rewrite ?Hs, ?Hcb;
      simpl; split; eauto.
  - rewrite Hs. simpl. split; eauto.
Qed.


(** The four things a step can do to the envelope table. *)
Lemma _processNewsEnvelope_envelopes m c :
  let E := _newsEnvelope c in
  let E' := _newsEnvelope (final (_processNewsEnvelope m c)) in
  E' = E
  \/ (exists ky fields frag tot,
        news_update m ky fields frag /\ js_gt (FRAG_NUM fields) 1 = false
        /\ Z.of_nat (String.length frag) < tot
        /\ E' = <[envelope_key ky fields := mkEnvelope frag tot]> E)
  \/ (exists ky fields frag e,
        news_update m ky fields frag /\ js_gt (FRAG_NUM fields) 1 = true
        /\ E !! envelope_key ky fields = Some e
        /\ ((Z.of_nat (String.length (fragments e +:+ frag)) < totalSize e
             /\ E' = <[envelope_key ky fields
                       := mkEnvelope (fragments e +:+ frag) (totalSize e)]> E)
            \/ (totalSize e <= Z.of_nat (String.length (fragments e +:+ frag))
                /\ E' = delete (envelope_key ky fields) E))).
Proof.
  unfold _processNewsEnvelope. run. simpl.
  destruct (str_is (Type_ m) "Update") eqn:Ht; simpl; [|by left].
  destruct (str_is (Domain m) MRN_DOMAIN) eqn:Hd; simpl; [|by left].
  apply str_is_true in Ht, Hd.
  destruct (Fields m) as [fields|] eqn:Hf; simpl;
    [|left; by destruct (_statusCb c)].
  destruct (atob _) as [frag|] eqn:Ha; simpl;
    [|left; by destruct (_statusCb c)].
  destruct (Key m) as [ky|] eqn:Hk; simpl;
    [|left; by destruct (_statusCb c)].
  assert (Hm : news_update m ky fields frag) by (unfold news_update; auto).
  destruct (js_gt (FRAG_NUM fields) 1) eqn:Hn; simpl.
  - destruct (_newsEnvelope c !! envelope_key ky fields) as [e|] eqn:He;
      simpl; [|left; crunch].
    right; right. exists ky, fields, frag, e. split_and!; [done..|].
    destruct (Z.ltb_spec (Z.of_nat (String.length (fragments e +:+ frag)))
                (totalSize e)); simpl.
    + by left.
    + right. split; [done|]. crunch; by rewrite delete_insert_eq.
  - destruct (TOT_SIZE fields) as [tot|]; simpl; [|left; crunch].
    destruct (Z.ltb_spec (Z.of_nat (String.length frag)) tot); simpl;
      [|left; crunch].
    right; left. by exists ky, fields, frag, tot.
Qed.

(** A step removes the envelope of a key exactly when its fragment
    completes that envelope. *)
Lemma _processNewsEnvelope_removes m c k e :
  _newsEnvelope c !! k = Some e ->
  (_newsEnvelope (final (_processNewsEnvelope m c)) !! k = None
   <-> completes m k e).
Proof.
  intros He. split.
  - intros Hgone.
    destruct (_processNewsEnvelope_envelopes m c)
      as [Hsame|[(ky & fields & frag & tot & Hm & Hn & Hlt & Hnew)
                |(ky & fields & frag & e' & Hm & Hn & He' & Hcase)]].
    + rewrite Hsame in Hgone. congruence.
    + rewrite Hnew in Hgone.
      destruct (decide (envelope_key ky fields = k)) as [<-|Hne].
      * by rewrite lookup_insert_eq in Hgone.
      * rewrite lookup_insert_ne in Hgone by done. congruence.
    + destruct Hcase as [[Hlt Hnew]|[Hge Hnew]]; rewrite Hnew in Hgone.
      * destruct (decide (envelope_key ky fields = k)) as [<-|Hne].
        -- by rewrite lookup_insert_eq in Hgone.
        -- rewrite lookup_insert_ne in Hgone by done. congruence.
      * destruct (decide (envelope_key ky fields = k)) as [<-|Hne].
        -- assert (e' = e) by congruence. subst e'.
           by exists ky, fields, frag.
        -- rewrite lookup_delete_ne in Hgone by done. congruence.
  - intros (ky & fields & frag & Hm & <- & Hn & Hge).
    pose proof (news_update_guard _ _ _ _ Hm) as Hg.
    destruct Hm as (_ & _ & Hf & Hk & Ha).
    unfold _processNewsEnvelope. rewrite Hg, Hf, Hk. run. rewrite Ha, Hn, He.
    simpl.
    destruct (Z.ltb_spec (Z.of_nat (String.length (fragments e +:+ frag)))
                (totalSize e)); [lia|].
    simpl. crunch; simpl; by rewrite lookup_delete_eq.
Qed.

(** Every envelope a step stores or changes is short of its size; the
    others are as they were. *)
Lemma _processNewsEnvelope_entries m c k e' :
  _newsEnvelope (final (_processNewsEnvelope m c)) !! k = Some e' ->
  _newsEnvelope c !! k = Some e'
  \/ Z.of_nat (String.length (fragments e')) < totalSize e'.
Proof.
  intros Hk.
  destruct (_processNewsEnvelope_envelopes m c)
    as [Hsame|[(ky & fields & frag & tot & Hm & Hn & Hlt & Hnew)
              |(ky & fields & frag & e & Hm & Hn & He & Hcase)]].
  - left. by rewrite <- Hsame.
  - rewrite Hnew in Hk.
    destruct (decide (envelope_key ky fields = k)) as [<-|Hne].
    + rewrite lookup_insert_eq in Hk. injection Hk as <-. by right.
    + rewrite lookup_insert_ne in Hk by done. by left.
  - destruct Hcase as [[Hlt Hnew]|[Hge Hnew]]; rewrite Hnew in Hk.
    + destruct (decide (envelope_key ky fields = k)) as [<-|Hne].
      * rewrite lookup_insert_eq in Hk. injection Hk as <-. by right.
      * rewrite lookup_insert_ne in Hk by done. by left.
    + destruct (decide (envelope_key ky fields = k)) as [<-|Hne].
      * by rewrite lookup_delete_eq in Hk.
      * rewrite lookup_delete_ne in Hk by done. by left.
Qed.

(** The invariant of the envelope table is kept by every step. *)
Lemma _processNewsEnvelope_invariant m c :
  map_Forall (fun _ e => envelope_ok e) (_newsEnvelope c) ->
  map_Forall (fun _ e => envelope_ok e)
    (_newsEnvelope (final (_processNewsEnvelope m c))).
Proof.
  intros Hinv k e' Hk.
  destruct (_processNewsEnvelope_entries m c k e' Hk) as [Hold|Hlt].
  - exact (Hinv k e' Hold).
  - unfold envelope_ok. lia.
Qed.

Lemma reassemble_invariant msgs : forall c,
  map_Forall (fun _ e => envelope_ok e) (_newsEnvelope c) ->
  map_Forall (fun _ e => envelope_ok e)
    (_newsEnvelope (reassemble msgs c).1).
Proof.
  induction msgs as [|m msgs IH]; intros c Hinv; [done|].
  simpl. destruct (reassemble msgs (final (_processNewsEnvelope m c)))
    as [c' ev] eqn:Hrun. simpl.
  specialize (IH _ (_processNewsEnvelope_invariant m c Hinv)).
  by rewrite Hrun in IH.
Qed.

End Reassembler.

(** ** The dispatcher *)

Section Frames.
Context `{Platform}.
Implicit Types (c : Controller) (m : Msg).

Ltac crunch := repeat (case_match; simpl in *; simplify_eq; try done).


Lemma _removeID_keeps_statusCb id c :
  _statusCb (final (_removeID id c)) = _statusCb c.
Proof. unfold _removeID. crunch. Qed.

Lemma _processNewsEnvelope_keeps_statusCb m c :
  _statusCb (final (_processNewsEnvelope m c)) = _statusCb c.
Proof. by rewrite _processNewsEnvelope_frame. Qed.

(** No element of a frame changes the status callback. *)
Lemma dispatch_keeps_statusCb m c :
  _statusCb (final (dispatch m c)) = _statusCb c.
Proof.
  unfold dispatch. run.
  pose proof (_removeID_keeps_statusCb (Id m)) as Hrm.
  pose proof (_processNewsEnvelope_keeps_statusCb m) as Hpn.
  repeat (case_match; simpl in *; simplify_eq; try done);
    repeat match goal with
    | Heq : _removeID ?i ?c = _ |- _ =>
        let Hx := fresh in
        pose proof (Hrm c) as Hx; rewrite Heq in Hx; simpl in Hx; clear Heq
    | Heq : _processNewsEnvelope ?m ?c = _ |- _ =>
        let Hx := fresh in
        pose proof (Hpn c) as Hx; rewrite Heq in Hx; simpl in Hx; clear Heq
    end; congruence.
Qed.

(** An element that throws has called nothing before the throw. *)
Lemma dispatch_throw_silent m c err :
  completion (dispatch m c) = Throw err -> events (dispatch m c) = [].
Proof.
  unfold dispatch. run. unfold _removeID.
  pose proof (_processNewsEnvelope_returns m) as Hpn.
  repeat (case_match; simpl in *; simplify_eq; try done);
    repeat match goal with
    | Heq : _processNewsEnvelope ?m ?c = _ |- _ =>
        let Hx := fresh in
        pose proof (Hpn c) as Hx; rewrite Heq in Hx; simpl in Hx; clear Heq
    end; congruence.
Qed.

(** A loop over [pre ++ bad :: rest] whose element [bad] throws ends there;
    [rest] is not looked at. *)
Lemma forEach_throw {A} (body : A -> M unit) pre bad rest c c1 ev1 err :
  forEach pre body c = mkResult (Normal tt) c1 ev1 ->
  completion (body bad c1) = Throw err ->
  forEach (pre ++ bad :: rest) body c
  = mkResult (Throw err) (final (body bad c1)) (ev1 ++ events (body bad c1)).
Proof.
  revert c ev1. induction pre as [|x pre IH]; intros c ev1 Hpre Hbad.
  - simpl in Hpre. injection Hpre as <- <-. simpl. unfold bind.
    destruct (body bad c) as [r c2 ev2]. simpl in *. by subst r.
  - simpl in Hpre |- *. unfold bind in Hpre |- *.
    destruct (body x c) as [[[]|e] c2 ev2]; [|discriminate].
    destruct (forEach pre body c2) as [r c3 ev3] eqn:Hrun.
    injection Hpre as -> -> <-.
    rewrite (IH c2 ev3 Hrun Hbad). by rewrite app_assoc.
Qed.



(** The data branch on a "Refresh" without [State]: once the callback has
    been fetched, the read of [data.State.Stream] throws, and nothing is
    called. *)
Lemma dispatch_refresh_stateless m c :
  data_message m -> Type_ m = Some "Refresh" -> State m = None ->
  dispatch m c
  = mkResult (Throw (TypeError "Stream"))
      (set_msgCb
         match slot_at (_requestIDs c) (Id m) with
         | Some s => processingCb s
         | None => Undefined
         end c) [].
Proof.
  intros (Hping & Hlogin & Hstatus) Hty Hst. unfold dispatch.
  apply str_is_false in Hping, Hlogin, Hstatus. apply str_is_true in Hty.
  rewrite Hping, Hlogin, Hstatus, Hty, Hst. run.
  by destruct (slot_at (_requestIDs c) (Id m)).
Qed.

End Frames.

(** ** The sample sessions are reached by the controller's own methods *)

Example connecting_reached :
  final (Sample.startup TRWebSocketController) = Sample.connecting.
Proof. vm_compute. reflexivity. Qed.

Example session_reached :
  final (Sample.subscribe Sample.connecting) = Sample.session.
Proof. vm_compute. reflexivity. Qed.

(** * The claims *)

(** ** Request slots *)

Lemma closeRequest_unknown c (id : Z) :
  slot_at (_requestIDs c) (Some id) = None ->
  completion (closeRequest id c) = Throw (TypeError "used").
Proof.
  intros Hs. unfold closeRequest. run.
  destruct (ws c); simpl; by rewrite (_removeID_unknown c (Some id) Hs).
Qed.

(** C2 (the code departs from the claim).  [release] on an index the table
    does not have is not a no-op returning false: [_removeID] reads [.used]
    of [undefined] and throws, and [closeRequest] passes the exception on to
    its caller, after the close message has gone out.  Shown on the sample
    session (three slots, identifier 7) and on a new controller, where
    [closeRequest(0)] throws although 0 is what [requestData] returned. *)
Theorem closeRequest_unknown_id_throws :
  _removeID (Some 7) Sample.session
  = mkResult (Throw (TypeError "used")) Sample.session []
  /\ closeRequest 7 Sample.session
     = mkResult (Throw (TypeError "used")) Sample.session
         [WsSend (CloseRequest 7)]
  /\ requestData "TRI.N" "ELEKTRON_SERVICE" true "MarketPrice"
       TRWebSocketController
     = mkResult (Normal 0) TRWebSocketController []
  /\ closeRequest 0 TRWebSocketController
     = mkResult (Throw (TypeError "used")) TRWebSocketController [].
Proof. repeat split; vm_compute; reflexivity. Qed.

(** C3.  [_getID] returns the smallest index whose slot is free, marks it
    used and clears its callback; it appends a used slot, and returns its
    index, only when no slot is free.  Hence, in every run of allocations
    and releases that follows the release of an index [id], an allocation
    that returns a larger index comes after one that returned [id]. *)
Theorem allocate_first_free_and_reuse (c : Controller) (id : Z)
    (ops : list TableOp) :
  (exists i : nat,
      completion (_getID c) = Normal (Z.of_nat i)
      /\ events (_getID c) = []
      /\ final (_getID c) = set_requestIDs (_requestIDs (final (_getID c))) c
      /\ ((exists s, _requestIDs c !! i = Some s /\ free s
             /\ (forall (j : nat) s',
                    _requestIDs c !! j = Some s' -> (j < i)%nat -> ~ free s')
             /\ _requestIDs (final (_getID c))
                = <[i := mkSlot true Null]> (_requestIDs c))
          \/ (Forall (fun s => ~ free s) (_requestIDs c)
              /\ i = length (_requestIDs c)
              /\ _requestIDs (final (_getID c))
                 = _requestIDs c ++ [mkSlot true Null])))
  /\ (completion (_removeID (Some id) c) = Normal true ->
      forall (p : nat) (j : Z),
        allocated ops (final (_removeID (Some id) c)) !! p = Some j ->
        id < j ->
        exists q : nat,
          (q < p)%nat
          /\ allocated ops (final (_removeID (Some id) c)) !! q = Some id).
Proof.
  split.
  - destruct (_getID_cases c) as (i & Hc & Hcases).
    destruct (_getID_frame c) as (Hev & Hfr & _).
    exists i. auto.
  - intros Hrel p j Hp Hlt.
    destruct (slot_at (_requestIDs c) (Some id)) as [s|] eqn:Hs;
      [|by rewrite _removeID_unknown in Hrel].
    destruct (used s) eqn:Hu;
      [|by rewrite (_removeID_free c (Some id) s) in Hrel].
    rewrite (_removeID_used c id s Hs Hu) in Hp |- *. simpl in Hp |- *.
    apply slot_at_Some in Hs as [Hz Hs].
    assert (Hi : <[Z.to_nat id := mkSlot false (processingCb s)]>
                   (_requestIDs c) !! Z.to_nat id
                 = Some (mkSlot false (processingCb s))).
    { apply list_lookup_insert_eq. by eapply lookup_lt_Some. }
    rewrite <- (Z2Nat.id id Hz) in Hlt |- *.
    rewrite Nat2Z.id.
    eapply (allocated_reuses_first ops _ (Z.to_nat id)); eauto. done.
Qed.

(** ** The session *)

(** C9.  [_onClose] sets the logged-in flag to false and calls the status
    callback, when one is registered, with [disconnected] and no second
    argument; it changes nothing else: the slot table, the envelope table
    and every other field are as before. *)
Theorem _onClose_only_logs_out (c : Controller) :
  completion (_onClose c) = Normal tt
  /\ _loggedIn (final (_onClose c)) = false
  /\ events (_onClose c)
     = match _statusCb c with
       | Some f => [StatusCall f disconnected NoPayload]
       | None => []
       end
  /\ _requestIDs (final (_onClose c)) = _requestIDs c
  /\ _newsEnvelope (final (_onClose c)) = _newsEnvelope c
  /\ final (_onClose c) = set_loggedIn false c.
Proof. by rewrite _onClose_result. Qed.

(** C10.  While the controller is not logged in, [requestData] returns 0,
    leaves the controller as it is and sends nothing; [requestNews] returns
    0 and sends nothing as well, but makes [_processNewsEnvelope] the
    callback of slot 0 when the table has a slot 0. *)
Theorem requests_while_logged_out (c : Controller)
    (ric service domain : string) (streaming : bool) :
  _loggedIn c = false ->
  requestData ric service streaming domain c = mkResult (Normal 0) c []
  /\ (forall s rest, _requestIDs c = s :: rest ->
        requestNews service ric c
        = mkResult (Normal 0)
            (set_requestIDs
               (mkSlot (used s) (Fn ProcessNewsEnvelope) :: rest) c) [])
  /\ (_requestIDs c = [] ->
        requestNews service ric c = mkResult (Normal 0) c []).
Proof.
  intros Hl. split; [by apply requestData_logged_out|].
  unfold requestNews, bind.
  rewrite (requestData_logged_out c ric service true MRN_DOMAIN Hl).
  unfold _setCallback, slot_at, update_slot. simpl.
  split.
  - intros s rest ->. done.
  - intros ->. done.
Qed.

Section Claims.
Context `{Platform}.
Implicit Types (c : Controller) (m : Msg).

(** C5, as amended.  For a message with [Domain] "Login" that is not a ping
    and carries a [State]: dispatch returns normally, [loggedIn()] is
    afterwards true exactly when [State.Data] is "Ok", and the status
    callback, when one is registered, is called once with [loginResponse]
    and the message, whether the login succeeded or not; nothing else of
    the controller changes. *)
Theorem login_response_sets_loggedIn c m st :
  Type_ m <> Some "Ping" -> Domain m = Some "Login" -> State m = Some st ->
  dispatch m c
  = mkResult (Normal tt) (set_loggedIn (str_is (Data st) "Ok") c)
      match _statusCb c with
      | Some f => [StatusCall f loginResponse (Message m)]
      | None => []
      end
  /\ (completion (loggedIn (final (dispatch m c))) = Normal true
      <-> Data st = Some "Ok").
Proof.
  intros Hping Hdom Hst.
  rewrite (dispatch_login c m st Hping Hdom Hst). split; [done|].
  unfold loggedIn. run. simpl. rewrite <- str_is_true.
  split; [by intros [= ->] | by intros ->].
Qed.


(** A frame with the empty text is ignored, whatever the platform. *)
Lemma empty_frame_ignored c :
  _onMessage (TextData EmptyString) c = mkResult (Normal tt) c [].
Proof. reflexivity. Qed.

Lemma forEach_keeps_statusCb (l : list Msg) : forall c,
  _statusCb (final (forEach l dispatch c)) = _statusCb c.
Proof.
  induction l as [|m l IH]; intros c; [done|].
  simpl. unfold bind.
  pose proof (dispatch_keeps_statusCb m c) as Hm.
  destruct (dispatch m c) as [[[]|e] c1 ev1]; simpl in *; [|done].
  specialize (IH c1).
  destruct (forEach l dispatch c1) as [r c2 ev2]. simpl in *. congruence.
Qed.

(** C7, as amended.  For a frame whose text is not empty: when the text
    is not JSON, the status callback, when one is registered, is called once
    with [processingError] and the controller is left as it was; when the
    dispatch of an element of the frame throws, the status callback is
    called once with [processingError] and the exception's message, after
    the calls of the elements before it, and the elements after it are not
    dispatched. *)
Theorem frame_failure_reported_once c (text : string) :
  text <> EmptyString ->
  (JSON_parse_frame text = None ->
   _onMessage (TextData text) c
   = mkResult (Normal tt) c
       match _statusCb c with
       | Some f => [StatusCall f processingError (ErrorMessage SyntaxError)]
       | None => []
       end)
  /\ (forall pre bad rest c1 ev1 err,
        JSON_parse_frame text = Some (pre ++ bad :: rest) ->
        forEach pre dispatch c = mkResult (Normal tt) c1 ev1 ->
        completion (dispatch bad c1) = Throw err ->
        _onMessage (TextData text) c
        = mkResult (Normal tt) (final (dispatch bad c1))
            (ev1 ++ match _statusCb c with
                    | Some f =>
                        [StatusCall f processingError (ErrorMessage err)]
                    | None => []
                    end)).
Proof.
  intros Hne.
  assert (Hlen : (0 <? String.length text)%nat = true).
  { destruct text; [done|]. done. }
  split.
  - intros Hparse. unfold _onMessage. rewrite Hlen. run. rewrite Hparse.
    simpl. by destruct (_statusCb c).
  - intros pre bad rest c1 ev1 err Hparse Hpre Hbad.
    unfold _onMessage. rewrite Hlen. unfold try_catch, bind, call.
    rewrite Hparse. unfold ret at 1.
    rewrite (forEach_throw dispatch pre bad rest c c1 ev1 err Hpre Hbad).
    rewrite (dispatch_throw_silent bad c1 err Hbad).
    assert (Hcb : _statusCb (final (dispatch bad c1)) = _statusCb c).
    { rewrite dispatch_keeps_statusCb.
      pose proof (forEach_keeps_statusCb pre c) as Hk.
      by rewrite Hpre in Hk. }
    run. simpl. rewrite Hcb. rewrite app_nil_r.
    by destruct (_statusCb c).
Qed.


(** C8.  Every step of the reassembler keeps the invariant that each
    stored envelope holds no more bytes than its total size (an envelope
    the step stored or changed holds fewer), so the invariant holds after
    every sequence of steps; and a step removes the envelope of a key
    exactly when it appends a fragment with which the accumulated length
    reaches the envelope's total size. *)
Theorem envelopes_bounded_removed_at_completion c m (msgs : list Msg) :
  map_Forall (fun _ e => envelope_ok e) (_newsEnvelope c) ->
  map_Forall (fun _ e => envelope_ok e)
    (_newsEnvelope (final (_processNewsEnvelope m c)))
  /\ (forall k e',
        _newsEnvelope (final (_processNewsEnvelope m c)) !! k = Some e' ->
        _newsEnvelope c !! k = Some e'
        \/ Z.of_nat (String.length (fragments e')) < totalSize e')
  /\ map_Forall (fun _ e => envelope_ok e)
       (_newsEnvelope (reassemble msgs c).1)
  /\ (forall k e,
        _newsEnvelope c !! k = Some e ->
        (_newsEnvelope (final (_processNewsEnvelope m c)) !! k = None
         <-> completes m k e)).
Proof.
  intros Hinv. split_and!.
  - by apply _processNewsEnvelope_invariant.
  - apply _processNewsEnvelope_entries.
  - by apply reassemble_invariant.
  - apply _processNewsEnvelope_removes.
Qed.

(** A news update whose fragment does not decode is reported. *)
Lemma undecodable_fragment_reported m c fields f :
  Type_ m = Some "Update" -> Domain m = Some MRN_DOMAIN ->
  Fields m = Some fields -> atob (ToString (FRAGMENT fields)) = None ->
  _statusCb c = Some f ->
  _processNewsEnvelope m c
  = mkResult (Normal tt) c
      [StatusCall f processingError (ErrorMessage InvalidCharacterError)].
Proof.
  intros Ht Hd Hf Ha Hcb. unfold _processNewsEnvelope.
  apply str_is_true in Ht, Hd. rewrite Ht, Hd, Hf. run. rewrite Ha. simpl.
  by rewrite Hcb.
Qed.

(** C1 (the code departs from the claim).  The second fragment of a story,
    arriving at the sample session while no envelope is filed under its
    key, is not dropped: whatever the platform functions answer, the
    controller is left as it was and exactly one callback is called, the
    status callback with [processingError] or the news callback with what
    the lone fragment inflated to. *)
Theorem orphan_continuation_not_dropped :
  js_gt (Some 2) 1 = true
  /\ _newsEnvelope Sample.session
     !! story_key (Some "MRN_STORY") (Some "SRC") (Some "guid-1") = None
  /\ final (_processNewsEnvelope Sample.orphan Sample.session)
     = Sample.session
  /\ ((exists err,
         events (_processNewsEnvelope Sample.orphan Sample.session)
         = [StatusCall 1%nat processingError (ErrorMessage err)])
      \/ (exists contents,
            events (_processNewsEnvelope Sample.orphan Sample.session)
            = [NewsCall 3%nat (Some "MRN_STORY") contents])).
Proof.
  split; [done|]. split; [done|].
  destruct (atob "/1sxLDIs") as [frag|] eqn:Ha.
  - apply (orphan_continuation_processed Sample.orphan Sample.session
             (mkKey (Some "MRN_STORY"))
             (mkFields (Some "/1sxLDIs") (Some 2) (Some 18) (Some "guid-1")
                (Some "SRC")) frag); try done.
  - rewrite (undecodable_fragment_reported Sample.orphan Sample.session
               (mkFields (Some "/1sxLDIs") (Some 2) (Some 18) (Some "guid-1")
                  (Some "SRC")) 1%nat); try done.
    split; [done|]. left. eauto.
Qed.

End Claims.

(** * The claims on the sample sessions *)

(** With the executable platform the lone second fragment is refused by
    the inflater and the refusal is reported. *)
Example orphan_reported_on_demo_platform :
  _processNewsEnvelope (H := Demo.platform) Sample.orphan Sample.session
  = mkResult (Normal tt) Sample.session
      [StatusCall 1%nat processingError (ErrorMessage InflateError)].
Proof. vm_compute. reflexivity. Qed.

Lemma allocate_first_free_and_reuse_witness :
  exists q : nat,
    (q < 1)%nat
    /\ allocated [Allocate; Allocate]
         (final (_removeID (Some 1) Sample.session)) !! q = Some 1.
Proof.
  apply (proj2 (allocate_first_free_and_reuse Sample.session 1
                  [Allocate; Allocate]) eq_refl 1%nat 3).
  - reflexivity.
  - lia.
Defined.

Lemma requests_while_logged_out_witness :
  requestData "TRI.N" "ELEKTRON_SERVICE" true "MarketPrice" Sample.connecting
  = mkResult (Normal 0) Sample.connecting []
  /\ requestNews "ELEKTRON_SERVICE" "MRN_STORY" Sample.connecting
     = mkResult (Normal 0)
         (set_requestIDs [mkSlot true (Fn ProcessNewsEnvelope)]
            Sample.connecting) [].
Proof.
  pose proof (requests_while_logged_out Sample.connecting "TRI.N"
                "ELEKTRON_SERVICE" "MarketPrice" true eq_refl) as [Hd _].
  pose proof (requests_while_logged_out Sample.connecting "MRN_STORY"
                "ELEKTRON_SERVICE" "MarketPrice" true eq_refl) as (_ & Hn & _).
  split; [exact Hd | exact (Hn (mkSlot true Null) [] eq_refl)].
Defined.

Lemma login_response_sets_loggedIn_witness :
  dispatch (H := Demo.platform) Sample.login_ok Sample.connecting
  = mkResult (Normal tt) (set_loggedIn true Sample.connecting)
      [StatusCall 1%nat loginResponse (Message Sample.login_ok)]
  /\ dispatch (H := Demo.platform) Sample.login_denied Sample.connecting
     = mkResult (Normal tt) (set_loggedIn false Sample.connecting)
         [StatusCall 1%nat loginResponse (Message Sample.login_denied)].
Proof.
  split.
  - apply (login_response_sets_loggedIn Sample.connecting Sample.login_ok
             (mkState (Some "Open") (Some "Ok"))); done.
  - apply (login_response_sets_loggedIn Sample.connecting Sample.login_denied
             (mkState (Some "Closed") (Some "Suspect"))); done.
Defined.

(** A message whose [Domain] is "Login" and whose [State.Data] is "Ok", but
    whose [Type] is "Ping", is answered with a pong: the controller stays
    logged out and no [loginResponse] is reported.  One without a [State]
    throws before anything is set or reported. *)
Lemma login_domain_counterexample :
  Domain Sample.login_ping = Some "Login"
  /\ State Sample.login_ping = Some (mkState (Some "Open") (Some "Ok"))
  /\ dispatch (H := Demo.platform) Sample.login_ping Sample.connecting
     = mkResult (Normal tt) Sample.connecting [WsSend Pong]
  /\ _loggedIn Sample.connecting = false
  /\ Domain Sample.login_stateless = Some "Login"
  /\ dispatch (H := Demo.platform) Sample.login_stateless Sample.session
     = mkResult (Throw (TypeError "Data")) Sample.session []
  /\ _loggedIn Sample.session = true.
Proof. repeat split; vm_compute; reflexivity. Qed.



Lemma frame_failure_reported_once_witness :
  _onMessage (H := Demo.platform) (TextData Sample.not_json) Sample.session
  = mkResult (Normal tt) Sample.session
      [StatusCall 1%nat processingError (ErrorMessage SyntaxError)]
  /\ _onMessage (H := Demo.platform) (TextData Sample.failing_frame)
       Sample.session
     = mkResult (Normal tt) Sample.session
         ([WsSend Pong]
          ++ [StatusCall 1%nat processingError
                (ErrorMessage (TypeError "used"))]).
Proof.
  split.
  - apply (frame_failure_reported_once (H := Demo.platform) Sample.session
             Sample.not_json); [done | reflexivity].
  - apply (proj2 (frame_failure_reported_once (H := Demo.platform)
                    Sample.session Sample.failing_frame ltac:(done))
             [Sample.ping] Sample.closed_unknown [Sample.ping]
             Sample.session [WsSend Pong] (TypeError "used"));
      vm_compute; reflexivity.
Defined.

(** The empty text is not JSON, yet a frame with it reports nothing; and
    an exception raised inside the reassembler while the first element of a
    frame is dispatched is reported without ending the frame: the ping
    after it is answered. *)
Lemma frame_failure_counterexample :
  JSON_parse_frame (Platform := Demo.platform) EmptyString = None
  /\ _onMessage (H := Demo.platform) (TextData EmptyString) Sample.session
     = mkResult (Normal tt) Sample.session []
  /\ JSON_parse_frame (Platform := Demo.platform) Sample.garbled_frame
     = Some [Sample.garbled; Sample.ping]
  /\ atob (Platform := Demo.platform) "!!!!" = None
  /\ events (_onMessage (H := Demo.platform) (TextData Sample.garbled_frame)
               Sample.session)
     = [StatusCall 1%nat processingError (ErrorMessage InvalidCharacterError);
        WsSend Pong].
Proof. repeat split; vm_compute; reflexivity. Qed.



Lemma envelopes_bounded_removed_at_completion_witness :
  map_Forall (fun _ e => envelope_ok e)
    (_newsEnvelope
       (final (_processNewsEnvelope (H := Demo.platform)
                 (Sample.news 2 18 "/1sxLDIs") Sample.midstory))).
Proof.
  apply (envelopes_bounded_removed_at_completion (H := Demo.platform)
           Sample.midstory (Sample.news 2 18 "/1sxLDIs") []).
  apply _processNewsEnvelope_invariant, map_Forall_empty.
Defined.

(** * Further properties of the controller *)

(** ** Closing requests *)

Section Closing.
Implicit Types (c : Controller) (l : list Slot) (s : Slot).

Lemma set_requestIDs_same c : set_requestIDs (_requestIDs c) c = c.
Proof. by destruct c. Qed.

Lemma filter_positive_seq (k n : nat) :
  (0 < k)%nat -> filter (fun i => (0 < i)%nat) (seq k n) = seq k n.
Proof.
  revert k. induction n as [|n IH]; intros k Hk; [done|].
  simpl. rewrite filter_cons_True by done. f_equal. apply IH. lia.
Qed.

(** [_getAvailableStreams] lists every index above 0, in order, whether the
    slot is in use or not. *)
Lemma _getAvailableStreams_result c :
  _getAvailableStreams c
  = mkResult (Normal (Z.of_nat <$> seq 1 (length (_requestIDs c) - 1))) c [].
Proof.
  unfold _getAvailableStreams. do 3 f_equal.
  destruct (length (_requestIDs c)) as [|n]; [done|].
  simpl. rewrite filter_cons_False by lia. rewrite Nat.sub_0_r.
  apply filter_positive_seq. lia.
Qed.

(** [closeRequest] on an index of the table. *)
Lemma closeRequest_known c (i : nat) s :
  _requestIDs c !! i = Some s ->
  closeRequest (Z.of_nat i) c
  = mkResult (Normal tt)
      (set_requestIDs (<[i := mkSlot false (processingCb s)]> (_requestIDs c)) c)
      (if ws c then [WsSend (CloseRequest (Z.of_nat i))] else []).
Proof.
  intros Hs.
  assert (Hat : slot_at (_requestIDs c) (Some (Z.of_nat i)) = Some s)
    by by rewrite slot_at_nat.
  unfold closeRequest. run.
  destruct (used s) eqn:Hu.
  - destruct (ws c); cbv beta iota zeta;
      by rewrite (_removeID_used c (Z.of_nat i) s Hat Hu), Nat2Z.id.
  - assert (<[i := mkSlot false (processingCb s)]> (_requestIDs c)
            = _requestIDs c) as ->.
    { apply list_insert_id. destruct s as [u cb]. simpl in Hu. by subst u. }
    rewrite set_requestIDs_same.
    destruct (ws c); cbv beta iota zeta;
      by rewrite (_removeID_free c (Some (Z.of_nat i)) s Hat Hu).
Qed.

Lemma close_loop (suf : list Slot) : forall (pre : list Slot) c,
  _requestIDs c = pre ++ suf ->
  forEach (Z.of_nat <$> seq (length pre) (length suf)) closeRequest c
  = mkResult (Normal tt)
      (set_requestIDs
         (pre ++ ((fun s => mkSlot false (processingCb s)) <$> suf)) c)
      (if ws c
       then (fun i => WsSend (CloseRequest (Z.of_nat i)))
            <$> seq (length pre) (length suf)
       else []).
Proof.
  induction suf as [|s suf IH]; intros pre c Hc.
  - simpl. rewrite app_nil_r in Hc |- *. rewrite <- Hc, set_requestIDs_same.
    unfold ret. by destruct (ws c).
  - change (length (s :: suf)) with (S (length suf)).
    rewrite <- !cons_seq, !fmap_cons. cbn [forEach]. unfold bind.
    assert (Hs : _requestIDs c !! length pre = Some s).
    { rewrite Hc. by apply list_lookup_middle. }
    rewrite (closeRequest_known c (length pre) s Hs).
    assert (Hnew : <[length pre := mkSlot false (processingCb s)]>
                     (_requestIDs c)
                   = (pre ++ [mkSlot false (processingCb s)]) ++ suf).
    { rewrite Hc, <- app_assoc. simpl.
      replace (length pre) with (length pre + 0)%nat at 1 by lia.
      by rewrite insert_app_r. }
    rewrite Hnew.
    specialize (IH (pre ++ [mkSlot false (processingCb s)])
                  (set_requestIDs
                     ((pre ++ [mkSlot false (processingCb s)]) ++ suf) c)
                  eq_refl).
    rewrite length_app in IH. simpl in IH.
    replace (length pre + 1)%nat with (S (length pre)) in IH by lia.
    rewrite IH. cbn [final events ws set_requestIDs].
    rewrite <- app_assoc. simpl. by destruct (ws c).
Qed.

(** The result of [closeAllRequests], in closed form. *)
Lemma closeAllRequests_result c :
  closeAllRequests c
  = mkResult (Normal tt)
      (set_requestIDs
         (take 1 (_requestIDs c)
          ++ ((fun s => mkSlot false (processingCb s))
              <$> drop 1 (_requestIDs c))) c)
      (if ws c
       then (fun i => WsSend (CloseRequest (Z.of_nat i)))
            <$> seq 1 (length (_requestIDs c) - 1)
       else []).
Proof.
  unfold closeAllRequests, bind. rewrite _getAvailableStreams_result.
  destruct (_requestIDs c) as [|s0 rest] eqn:Hc.
  - simpl. unfold ret. rewrite <- Hc, set_requestIDs_same.
    by destruct (ws c).
  - simpl. rewrite Nat.sub_0_r, drop_0.
    pose proof (close_loop rest [s0] c Hc) as Hloop. simpl in Hloop.
    rewrite Hloop. simpl. by destruct (ws c).
Qed.

(** X1.  [closeAllRequests] never throws.  It sends one close message for
    every index above 0 of the table, in ascending order and whether the
    slot is in use or free, and then every slot above 0 is free with its
    callback in place; slot 0 and the rest of the controller are as
    before. *)
Theorem closeAllRequests_closes_every_index c :
  closeAllRequests c
  = mkResult (Normal tt)
      (set_requestIDs
         (take 1 (_requestIDs c)
          ++ ((fun s => mkSlot false (processingCb s))
              <$> drop 1 (_requestIDs c))) c)
      (if ws c
       then (fun i => WsSend (CloseRequest (Z.of_nat i)))
            <$> seq 1 (length (_requestIDs c) - 1)
       else []).
Proof. apply closeAllRequests_result. Qed.

(** X2.  Closing is idempotent on the table but not on the wire: a second
    [closeAllRequests] leaves the controller as the first left it and sends
    the same close messages again. *)
Theorem closeAllRequests_twice c :
  final (closeAllRequests (final (closeAllRequests c)))
  = final (closeAllRequests c)
  /\ events (closeAllRequests (final (closeAllRequests c)))
     = events (closeAllRequests c).
Proof.
  rewrite !closeAllRequests_result. simpl.
  destruct (_requestIDs c) as [|s0 rest]; simpl; [done|].
  rewrite !drop_0, length_fmap. split; [|done].
  assert (((fun s => mkSlot false (processingCb s))
           <$> ((fun s => mkSlot false (processingCb s)) <$> rest))
          = (fun s => mkSlot false (processingCb s)) <$> rest) as ->; [|done].
  rewrite <- list_fmap_compose. by apply list_fmap_ext.
Qed.

(** X3.  [closeRequest] on an index of the table sends the close message,
    frees the slot and keeps its callback; on a slot that is free already
    it leaves the controller as it is and still sends the message. *)
Theorem closeRequest_frees_slot c (i : nat) s :
  _requestIDs c !! i = Some s ->
  closeRequest (Z.of_nat i) c
  = mkResult (Normal tt)
      (set_requestIDs (<[i := mkSlot false (processingCb s)]> (_requestIDs c)) c)
      (if ws c then [WsSend (CloseRequest (Z.of_nat i))] else [])
  /\ (used s = false ->
      closeRequest (Z.of_nat i) c
      = mkResult (Normal tt) c
          (if ws c then [WsSend (CloseRequest (Z.of_nat i))] else [])).
Proof.
  intros Hs. rewrite (closeRequest_known c i s Hs). split; [done|].
  intros Hu. destruct s as [u cb]. simpl in Hu. subst u. simpl.
  rewrite list_insert_id by done. by rewrite set_requestIDs_same.
Qed.

End Closing.

(** ** Requests and their callbacks *)

Section Requests.
Implicit Types (c : Controller) (l : list Slot) (s : Slot).

(** [_setCallback] on an index of the table changes the callback of that
    slot and nothing else. *)
Lemma _setCallback_known c (i : nat) s cb :
  _requestIDs c !! i = Some s ->
  _setCallback (Some (Z.of_nat i)) cb c
  = mkResult (Normal tt)
      (set_requestIDs (<[i := mkSlot (used s) cb]> (_requestIDs c)) c) [].
Proof.
  intros Hs. unfold _setCallback. by rewrite slot_at_nat, Hs, update_slot_nat.
Qed.

(** X4.  [_setCallback] followed by [_getCallback] gives the callback back,
    leaves the used flag and the other slots as they were; on an index the
    table does not have [_setCallback] does nothing and [_getCallback]
    answers [undefined]. *)
Theorem callback_set_then_get c (id : option Z) cb :
  (forall s, slot_at (_requestIDs c) id = Some s ->
     completion (_getCallback id (final (_setCallback id cb c))) = Normal cb
     /\ slot_at (_requestIDs (final (_setCallback id cb c))) id
        = Some (mkSlot (used s) cb)
     /\ (forall id', id' <> id ->
           slot_at (_requestIDs (final (_setCallback id cb c))) id'
           = slot_at (_requestIDs c) id'))
  /\ (slot_at (_requestIDs c) id = None ->
      _setCallback id cb c = mkResult (Normal tt) c []
      /\ _getCallback id c = mkResult (Normal Undefined) c []).
Proof.
  split.
  - intros s Hs. destruct id as [z|]; [|done].
    pose proof Hs as Hs'. apply slot_at_Some in Hs' as [Hz Hl].
    assert (Hnew : slot_at (<[Z.to_nat z := mkSlot (used s) cb]> (_requestIDs c))
                     (Some z) = Some (mkSlot (used s) cb)).
    { apply slot_at_Some. split; [done|].
      apply list_lookup_insert_eq. by eapply lookup_lt_Some. }
    assert (Hset : final (_setCallback (Some z) cb c)
                   = set_requestIDs
                       (<[Z.to_nat z := mkSlot (used s) cb]> (_requestIDs c)) c).
    { unfold _setCallback. rewrite Hs. unfold update_slot.
      by destruct (Z.leb_spec 0 z); [|lia]. }
    rewrite Hset. cbn [_requestIDs set_requestIDs].
    unfold _getCallback. cbn [_requestIDs set_requestIDs]. rewrite Hnew.
    split_and!; [done..|].
    intros [z'|] Hne; [|done]. unfold slot_at.
    destruct (Z.leb_spec 0 z'); [|done].
    apply list_lookup_insert_ne. intros Heq. apply Hne. f_equal. lia.
  - intros Hs. unfold _setCallback, _getCallback. by rewrite Hs.
Qed.

(** While the controller is logged in, [requestData] allocates. *)
Lemma requestData_logged_in c ric service streaming domain :
  _loggedIn c = true ->
  exists i : nat,
    completion (_getID c) = Normal (Z.of_nat i)
    /\ (i <= length (_requestIDs c))%nat
    /\ (forall s, _requestIDs c !! i = Some s -> used s = false)
    /\ requestData ric service streaming domain c
       = mkResult (Normal (Z.of_nat i))
           (set_requestIDs
              (if decide (i < length (_requestIDs c))%nat
               then <[i := mkSlot true (cb_of (_marketDataCb c))]>
                      (_requestIDs c)
               else _requestIDs c ++ [mkSlot true (cb_of (_marketDataCb c))])
              c)
           (if ws c
            then [WsSend (ItemRequest (Z.of_nat i) streaming domain ric
                            service)]
            else []).
Proof.
  intros Hl.
  destruct (_getID_cases c) as (i & Hc & Hcase).
  destruct (_getID_frame c) as (Hev & Hfr & _).
  exists i. split; [done|].
  assert (Hrun : forall l',
             _requestIDs (final (_getID c)) = l' ->
             l' !! i = Some (mkSlot true Null) ->
             requestData ric service streaming domain c
             = mkResult (Normal (Z.of_nat i))
                 (set_requestIDs
                    (<[i := mkSlot true (cb_of (_marketDataCb c))]> l') c)
                 (if ws c
                  then [WsSend (ItemRequest (Z.of_nat i) streaming domain ric
                                  service)]
                  else [])).
  { intros l' Hl' Hi. unfold requestData. run. rewrite Hl. simpl.
    destruct (_getID c) as [r c1 ev1]. simpl in *. subst r ev1.
    rewrite Hfr, Hl'. simpl.
    rewrite (_setCallback_known (set_requestIDs l' c) i (mkSlot true Null) _ Hi).
    simpl. by destruct (ws c). }
  destruct Hcase as [(s & Hi & Hfree & Hmin & Hnew)|(Hnone & -> & Hnew)].
  - pose proof (lookup_lt_Some _ _ _ Hi) as Hlt.
    split; [lia|]. split.
    { intros s' Hs'. assert (s' = s) by congruence. by subst s'. }
    rewrite (Hrun _ Hnew) by by apply list_lookup_insert_eq.
    rewrite list_insert_insert_eq. by rewrite decide_True by done.
  - split; [lia|]. split.
    { intros s Hs. apply lookup_lt_Some in Hs. lia. }
    rewrite (Hrun _ Hnew)
      by (rewrite lookup_app_r by lia; by rewrite Nat.sub_diag).
    rewrite decide_False by lia.
    rewrite insert_app_r_alt by lia. by rewrite Nat.sub_diag.
Qed.

End Requests.

Section Subscriptions.
Context `{Platform}.
Implicit Types (c : Controller) (m : Msg) (s : Slot).

(** What a request made while logged in does to the table and sends. *)
Lemma requestData_slot c ric service streaming domain :
  _loggedIn c = true ->
  exists i : nat,
    completion (requestData ric service streaming domain c)
    = Normal (Z.of_nat i)
    /\ (forall s, _requestIDs c !! i = Some s -> used s = false)
    /\ _requestIDs (final (requestData ric service streaming domain c)) !! i
       = Some (mkSlot true (cb_of (_marketDataCb c)))
    /\ (forall j : nat, j <> i ->
          _requestIDs (final (requestData ric service streaming domain c)) !! j
          = _requestIDs c !! j)
    /\ events (requestData ric service streaming domain c)
       = (if ws c
          then [WsSend (ItemRequest (Z.of_nat i) streaming domain ric service)]
          else [])
    /\ final (requestData ric service streaming domain c)
       = set_requestIDs
           (_requestIDs (final (requestData ric service streaming domain c)))
           c.
Proof.
  intros Hl.
  destruct (requestData_logged_in c ric service streaming domain Hl)
    as (i & _ & Hle & Hfree & Hrun).
  exists i. rewrite Hrun. cbn [completion final events _requestIDs
                                set_requestIDs].
  split_and!; try done.
  - case_decide.
    + by apply list_lookup_insert_eq.
    + rewrite lookup_app_r by lia.
      by replace (i - length (_requestIDs c))%nat with 0%nat by lia.
  - intros j Hj. case_decide.
    + by apply list_lookup_insert_ne.
    + assert (i = length (_requestIDs c)) by lia. subst i.
      destruct (decide (j < length (_requestIDs c))%nat).
      * by rewrite lookup_app_l.
      * rewrite lookup_app_r by lia.
        rewrite (lookup_ge_None_2 (_requestIDs c)) by lia.
        apply lookup_ge_None_2. simpl. lia.
Qed.

(** X5.  While the controller is logged in, [requestData] returns an index
    whose slot was not in use, leaves that slot in use with the market-data
    callback registered at that moment, leaves every other slot as it was,
    and sends one request carrying the index. *)
Theorem requestData_allocates_and_sends c ric service streaming domain :
  _loggedIn c = true ->
  exists i : nat,
    completion (requestData ric service streaming domain c)
    = Normal (Z.of_nat i)
    /\ (forall s, _requestIDs c !! i = Some s -> used s = false)
    /\ _requestIDs (final (requestData ric service streaming domain c)) !! i
       = Some (mkSlot true (cb_of (_marketDataCb c)))
    /\ (forall j : nat, j <> i ->
          _requestIDs (final (requestData ric service streaming domain c)) !! j
          = _requestIDs c !! j)
    /\ events (requestData ric service streaming domain c)
       = (if ws c
          then [WsSend (ItemRequest (Z.of_nat i) streaming domain ric service)]
          else [])
    /\ final (requestData ric service streaming domain c)
       = set_requestIDs
           (_requestIDs (final (requestData ric service streaming domain c)))
           c.
Proof. apply requestData_slot. Qed.

(** X6.  While the controller is logged in, [requestNews] does what
    [requestData] does for a streaming request of the news domain, and
    leaves [_processNewsEnvelope] as the callback of the slot. *)
Theorem requestNews_registers_reassembler c service ric :
  _loggedIn c = true ->
  exists i : nat,
    completion (requestNews service ric c) = Normal (Z.of_nat i)
    /\ (forall s, _requestIDs c !! i = Some s -> used s = false)
    /\ _requestIDs (final (requestNews service ric c)) !! i
       = Some (mkSlot true (Fn ProcessNewsEnvelope))
    /\ (forall j : nat, j <> i ->
          _requestIDs (final (requestNews service ric c)) !! j
          = _requestIDs c !! j)
    /\ events (requestNews service ric c)
       = (if ws c
          then [WsSend (ItemRequest (Z.of_nat i) true MRN_DOMAIN ric service)]
          else []).
Proof.
  intros Hl.
  destruct (requestData_slot c ric service true MRN_DOMAIN Hl)
    as (i & Hc & Hfree & Hi & Hother & Hev & Hfr).
  exists i. unfold requestNews, bind.
  destruct (requestData ric service true MRN_DOMAIN c) as [r c1 ev1].
  cbn [completion final events] in Hc, Hi, Hother, Hev, Hfr. subst r.
  rewrite (_setCallback_known c1 i _ (Fn ProcessNewsEnvelope) Hi).
  unfold ret.
  cbn [completion final events _requestIDs set_requestIDs used].
  split_and!; try done.
  - apply list_lookup_insert_eq. by eapply lookup_lt_Some.
  - intros j Hj. rewrite list_lookup_insert_ne by done. by apply Hother.
  - rewrite Hev. by destruct (ws c).
Qed.

(** X7.  Two requests made one after the other, with no release between
    them, get different identifiers. *)
Theorem successive_requests_differ c ric1 service1 streaming1 domain1
    ric2 service2 streaming2 domain2 (i j : Z) :
  _loggedIn c = true ->
  completion (requestData ric1 service1 streaming1 domain1 c) = Normal i ->
  completion
    (requestData ric2 service2 streaming2 domain2
       (final (requestData ric1 service1 streaming1 domain1 c)))
  = Normal j ->
  i <> j.
Proof.
  intros Hl Hi Hj.
  destruct (requestData_slot c ric1 service1 streaming1 domain1
              Hl) as (a & Ha & _ & Hslot & _ & _ & Hfr).
  assert (Hl' : _loggedIn (final (requestData ric1 service1 streaming1
                                    domain1 c)) = true)
    by by rewrite Hfr.
  destruct (requestData_slot _ ric2 service2 streaming2 domain2
              Hl') as (b & Hb & Hfree & _).
  intros ->. rewrite Ha in Hi. rewrite Hb in Hj.
  assert (a = b) by (apply Nat2Z.inj; congruence). subst b.
  by specialize (Hfree _ Hslot).
Qed.

(** A data message for a slot of the table: what is called depends on the
    slot's callback alone. *)
Lemma dispatch_data_known m c (id : Z) s :
  data_message m ->
  (Type_ m = Some "Refresh" -> State m <> None) -> Id m = Some id ->
  slot_at (_requestIDs c) (Some id) = Some s ->
  completion (dispatch m c) = Normal tt
  /\ (forall f, processingCb s = Fn (UserFn f) ->
        events (dispatch m c) = [DataCall f m])
  /\ (isCallback (processingCb s) = false -> events (dispatch m c) = []).
Proof.
  intros (Hping & Hlogin & Hstatus) Hst Hid Hs.
  unfold dispatch, _removeID.
  apply str_is_false in Hping, Hlogin, Hstatus.
  rewrite Hping, Hlogin, Hstatus, Hid. run. cbn [_requestIDs set_msgCb].
  rewrite Hs. cbn [_requestIDs set_msgCb]. rewrite ?Hs.
  pose proof (_processNewsEnvelope_returns m) as Hpn.
  pose proof Hs as Hs'. unfold slot_at in Hs'.
  destruct (str_is (Type_ m) "Refresh") eqn:Hty.
  - apply str_is_true in Hty. destruct (State m) as [st|]; [|by destruct Hst].
    destruct (str_is (Stream st) "NonStreaming");
      simpl; rewrite ?Hs'; simpl;
      destruct (used s), (processingCb s) as [| |[f|]];
      simpl; split_and!; try done;
      try (by intros f' [= ->]);
      try match goal with
          | |- context [_processNewsEnvelope m ?c'] =>
              specialize (Hpn c');
              by destruct (_processNewsEnvelope m c') as [[[]|?] ? ?]
          end.
  - destruct (processingCb s) as [| |[f|]];
      simpl; split_and!; try done;
      try (by intros f' [= ->]);
      try match goal with
          | |- context [_processNewsEnvelope m ?c'] =>
              specialize (Hpn c');
              by destruct (_processNewsEnvelope m c') as [[[]|?] ? ?]
          end.
Qed.

End Subscriptions.

Section Delivery.
Context `{Platform}.
Implicit Types (c : Controller) (m : Msg) (s : Slot).

(** X8.  A request keeps the market-data callback that was registered when
    it was made.  After [requestData] returned [i], a data message with
    [Id] [i] that is not a "Refresh" without [State] calls that function,
    also when another one has been registered with [onMarketData] since;
    and when none was registered at the time of the request the message
    calls nothing, whatever was registered later.  A "Refresh" without
    [State] throws at the read of [data.State.Stream], before anything is
    called. *)
Theorem request_keeps_callback_of_its_time c ric service streaming domain
    (i : Z) (later : option userfn) m :
  _loggedIn c = true ->
  completion (requestData ric service streaming domain c) = Normal i ->
  data_message m -> Id m = Some i ->
  ((Type_ m = Some "Refresh" -> State m <> None) ->
   events
     (dispatch m
        (final (onMarketData later
                  (final (requestData ric service streaming domain c)))))
   = match _marketDataCb c with
     | Some g => [DataCall g m]
     | None => []
     end)
  /\ (Type_ m = Some "Refresh" -> State m = None ->
      completion
        (dispatch m
           (final (onMarketData later
                     (final (requestData ric service streaming domain c)))))
      = Throw (TypeError "Stream")
      /\ events
           (dispatch m
              (final (onMarketData later
                        (final (requestData ric service streaming domain
                                  c)))))
         = []).
Proof.
  intros Hl Hi Hdata Hid.
  destruct (requestData_slot c ric service streaming domain Hl)
    as (a & Ha & _ & Hslot & _ & _ & _).
  rewrite Ha in Hi. injection Hi as <-.
  set (c1 := final (requestData ric service streaming domain c)) in *.
  split.
  - intros Hst.
    assert (Hat : slot_at (_requestIDs (final (onMarketData later c1)))
                    (Some (Z.of_nat a))
                  = Some (mkSlot true (cb_of (_marketDataCb c)))).
    { rewrite slot_at_nat. by destruct later. }
    destruct (dispatch_data_known m _ (Z.of_nat a) _ Hdata Hst Hid Hat)
      as (_ & Hfn & Hnone).
    destruct (_marketDataCb c) as [g|]; simpl in *; auto.
  - intros Hty Hnone.
    by rewrite (dispatch_refresh_stateless m _ Hdata Hty Hnone).
Qed.

(** X9.  A data message whose [Id] names no slot of the table calls
    nothing and sends nothing.  It is dropped, unless it is a "Refresh":
    with stream state "NonStreaming" the release of the missing slot
    throws, and without a [State] the read of [data.State.Stream] throws;
    a "Refresh" with another stream state is dropped like the rest. *)
Theorem unknown_id_dropped_or_thrown c m :
  data_message m -> slot_at (_requestIDs c) (Id m) = None ->
  ((Type_ m = Some "Refresh" -> State m <> None) ->
   (forall st, Type_ m = Some "Refresh" -> State m = Some st ->
      Stream st <> Some "NonStreaming") ->
   dispatch m c = mkResult (Normal tt) (set_msgCb Undefined c) [])
  /\ (forall st, Type_ m = Some "Refresh" -> State m = Some st ->
        Stream st = Some "NonStreaming" ->
        dispatch m c
        = mkResult (Throw (TypeError "used")) (set_msgCb Undefined c) [])
  /\ (Type_ m = Some "Refresh" -> State m = None ->
      dispatch m c
      = mkResult (Throw (TypeError "Stream")) (set_msgCb Undefined c) []).
Proof.
  intros Hdata Hs. split_and!; [| |
    intros Hty Hnone;
    by rewrite (dispatch_refresh_stateless m c Hdata Hty Hnone), Hs].
  all: destruct Hdata as (Hping & Hlogin & Hstatus); unfold dispatch;
    apply str_is_false in Hping, Hlogin, Hstatus;
    rewrite Hping, Hlogin, Hstatus; run; rewrite Hs.
  - intros Hst Hstream.
    destruct (str_is (Type_ m) "Refresh") eqn:Hty; [|done].
    apply str_is_true in Hty.
    destruct (State m) as [st|] eqn:Hst'; [|by destruct Hst].
    specialize (Hstream st Hty eq_refl). apply str_is_false in Hstream.
    by rewrite Hstream.
  - intros st Hty Hst Hstream. apply str_is_true in Hty, Hstream.
    rewrite Hty, Hst. simpl. rewrite Hstream.
    assert (Hs' : slot_at (_requestIDs (set_msgCb Undefined c)) (Id m) = None)
      by done.
    by rewrite (_removeID_unknown _ _ Hs').
Qed.

(** X10.  A status message (not a ping, not of the login domain) with a
    [State]: when the stream is not "Closed" the controller is left as it is
    and the message is reported; when it is "Closed" and the [Id] names a
    slot, the slot is freed, its callback kept, and the message is
    reported; when it is "Closed" and the [Id] names no slot, the release
    throws and the message is not reported. *)
Theorem status_message_dispatch c m st :
  Type_ m = Some "Status" -> Domain m <> Some "Login" -> State m = Some st ->
  (Stream st <> Some "Closed" ->
   dispatch m c
   = mkResult (Normal tt) c
       match _statusCb c with
       | Some f => [StatusCall f msgStatus (Message m)]
       | None => []
       end)
  /\ (forall (i : nat) s,
        Stream st = Some "Closed" -> Id m = Some (Z.of_nat i) ->
        _requestIDs c !! i = Some s ->
        dispatch m c
        = mkResult (Normal tt)
            (set_requestIDs
               (<[i := mkSlot false (processingCb s)]> (_requestIDs c)) c)
            match _statusCb c with
            | Some f => [StatusCall f msgStatus (Message m)]
            | None => []
            end)
  /\ (Stream st = Some "Closed" -> slot_at (_requestIDs c) (Id m) = None ->
      dispatch m c = mkResult (Throw (TypeError "used")) c []).
Proof.
  intros Hty Hlogin Hst. unfold dispatch.
  assert (Hping : str_is (Type_ m) "Ping" = false)
    by (apply str_is_false; congruence).
  apply str_is_false in Hlogin. apply str_is_true in Hty.
  rewrite Hping, Hlogin, Hty, Hst. run. split_and!.
  - intros Hstream. apply str_is_false in Hstream. rewrite Hstream.
    simpl. by destruct (_statusCb c).
  - intros i s Hstream Hid Hs. apply str_is_true in Hstream.
    rewrite Hstream, Hid.
    assert (Hat : slot_at (_requestIDs c) (Some (Z.of_nat i)) = Some s)
      by by rewrite slot_at_nat.
    destruct (used s) eqn:Hu.
    + rewrite (_removeID_used c (Z.of_nat i) s Hat Hu), Nat2Z.id. simpl.
      by destruct (_statusCb c).
    + rewrite (_removeID_free c _ s Hat Hu).
      assert (<[i := mkSlot false (processingCb s)]> (_requestIDs c)
              = _requestIDs c) as ->.
      { apply list_insert_id. destruct s as [u cb]. simpl in Hu. by subst u. }
      rewrite set_requestIDs_same. simpl. by destruct (_statusCb c).
  - intros Hstream Hs. apply str_is_true in Hstream. rewrite Hstream.
    by rewrite (_removeID_unknown c _ Hs).
Qed.

End Delivery.

(** ** What a frame can and cannot do *)

Section Frame.
Context `{Platform}.
Implicit Types (c : Controller) (m : Msg) (s : Slot).

Lemma only_freed_refl (l : list Slot) : only_freed l l.
Proof. apply Forall2_same_length_lookup_2; [done|]. intros; by simplify_eq. Qed.

Lemma only_freed_trans (l1 l2 l3 : list Slot) :
  only_freed l1 l2 -> only_freed l2 l3 -> only_freed l1 l3.
Proof.
  unfold only_freed. intros H12 H23.
  revert l3 H23. induction H12 as [|s1 s2 l1 l2 [Hcb Hu] _ IH];
    intros l3 H23; inversion H23 as [|? s3 ? l3' [Hcb' Hu'] H23']; subst.
  - constructor.
  - constructor; [|by apply IH]. split; [congruence | auto].
Qed.

Lemma only_freed_release (l : list Slot) (i : nat) s :
  l !! i = Some s -> only_freed l (<[i := mkSlot false (processingCb s)]> l).
Proof.
  intros Hs. apply Forall2_same_length_lookup_2; [by rewrite length_insert|].
  intros j s1 s2 H1 H2. destruct (decide (i = j)) as [->|Hne].
  - rewrite list_lookup_insert_eq in H2 by by eapply lookup_lt_Some.
    by simplify_eq.
  - rewrite list_lookup_insert_ne in H2 by done. by simplify_eq.
Qed.

Lemma same_setup_refl c : same_setup c c.
Proof. unfold same_setup. split_and!; try done. apply only_freed_refl. Qed.

Lemma same_setup_trans c1 c2 c3 :
  same_setup c1 c2 -> same_setup c2 c3 -> same_setup c1 c3.
Proof.
  unfold same_setup. intros (?&?&?&?&?&?) (?&?&?&?&?&?).
  split_and!; try congruence. by eapply only_freed_trans.
Qed.

Lemma _removeID_same_setup id c : same_setup c (final (_removeID id c)).
Proof.
  unfold _removeID.
  destruct (slot_at (_requestIDs c) id) as [s|] eqn:Hs; simpl;
    [|apply same_setup_refl].
  destruct (used s); simpl; [|apply same_setup_refl].
  destruct id as [z|]; [|done]. apply slot_at_Some in Hs as [Hz Hs].
  unfold same_setup, update_slot. simpl.
  destruct (Z.leb_spec 0 z); [|lia].
  split_and!; try done. by apply only_freed_release.
Qed.

Lemma _processNewsEnvelope_same_setup m c :
  same_setup c (final (_processNewsEnvelope m c)).
Proof.
  rewrite _processNewsEnvelope_frame. unfold same_setup. simpl.
  split_and!; try done. apply only_freed_refl.
Qed.

Lemma set_msgCb_same_setup cb c : same_setup c (set_msgCb cb c).
Proof. unfold same_setup. simpl. split_and!; try done. apply only_freed_refl. Qed.

Lemma set_loggedIn_same_setup b c : same_setup c (set_loggedIn b c).
Proof. unfold same_setup. simpl. split_and!; try done. apply only_freed_refl. Qed.

(** No element of a frame registers, replaces or clears a callback,
    allocates a slot, or touches the login parameters or the socket. *)
Lemma dispatch_same_setup m c : same_setup c (final (dispatch m c)).
Proof.
  unfold dispatch. run.
  pose proof (_removeID_same_setup (Id m)) as Hrm.
  pose proof (_processNewsEnvelope_same_setup m) as Hpn.
  pose proof set_msgCb_same_setup as Hmsg.
  pose proof set_loggedIn_same_setup as Hlog.
  repeat (case_match; simpl in *; simplify_eq;
          try apply same_setup_refl; try done);
    repeat match goal with
    | Heq : _removeID ?i ?c0 = _ |- _ =>
        let Hx := fresh in
        pose proof (Hrm c0) as Hx; rewrite Heq in Hx; simpl in Hx; clear Heq
    | Heq : _processNewsEnvelope ?m ?c0 = _ |- _ =>
        let Hx := fresh in
        pose proof (Hpn c0) as Hx; rewrite Heq in Hx; simpl in Hx; clear Heq
    end;
    eauto using same_setup_trans.
Qed.

Lemma forEach_same_setup (l : list Msg) : forall c,
  same_setup c (final (forEach l dispatch c)).
Proof.
  induction l as [|m l IH]; intros c; [apply same_setup_refl|].
  simpl. unfold bind.
  pose proof (dispatch_same_setup m c) as Hm.
  destruct (dispatch m c) as [[[]|e] c1 ev1]; simpl in *; [|done].
  specialize (IH c1).
  destruct (forEach l dispatch c1) as [r c2 ev2]. simpl in *.
  by eapply same_setup_trans.
Qed.

(** X11.  [_onMessage] never throws, whatever the frame and whatever the
    platform functions do; and it leaves the application callbacks, the
    login parameters and the socket as they were, allocates no slot and
    changes no slot's callback: all it does to the table is free slots. *)
Theorem _onMessage_safe (msg : MessageData) c :
  completion (_onMessage msg c) = Normal tt
  /\ same_setup c (final (_onMessage msg c)).
Proof.
  destruct msg as [text|]; [|split; [done | apply same_setup_refl]].
  unfold _onMessage.
  destruct (0 <? String.length text)%nat;
    [|split; [done | apply same_setup_refl]].
  unfold try_catch, bind, call.
  destruct (JSON_parse_frame text) as [frame|].
  - cbv beta iota zeta delta [ret].
    pose proof (forEach_same_setup frame c) as Hf.
    destruct (forEach frame dispatch c) as [[[]|e] c1 ev1]; simpl in *;
      [by split|].
    unfold report. run. destruct (_statusCb c1); simpl; by split.
  - unfold throw. unfold report. run.
    destruct (_statusCb c); simpl; split; try done; apply same_setup_refl.
Qed.

(** A frame's element logs the controller in only as a login response
    whose [State.Data] is "Ok". *)
Lemma dispatch_logs_in m c :
  _loggedIn (final (dispatch m c)) = true ->
  _loggedIn c = true
  \/ (Domain m = Some "Login"
      /\ exists st, State m = Some st /\ Data st = Some "Ok").
Proof.
  unfold dispatch. run. unfold _removeID.
  assert (Hpn : forall c0,
            _loggedIn (final (_processNewsEnvelope m c0)) = _loggedIn c0)
    by (intros c0; by rewrite _processNewsEnvelope_frame).
  destruct (str_is (Type_ m) "Ping") eqn:Hping.
  { destruct (ws c); simpl; auto. }
  destruct (str_is (Domain m) "Login") eqn:Hlogin.
  { apply str_is_true in Hlogin.
    destruct (State m) as [st|]; simpl; [|auto].
    destruct (_statusCb c); simpl; intros Hok; apply str_is_true in Hok;
      right; eauto. }
  repeat (case_match; simpl in *; simplify_eq; auto);
    repeat match goal with
    | Heq : _processNewsEnvelope ?m ?c0 = _ |- _ =>
        let Hx := fresh in
        pose proof (Hpn c0) as Hx; rewrite Heq in Hx; simpl in Hx; clear Heq
    end; simpl; auto; intros; left; congruence.
Qed.

Lemma forEach_logs_in (l : list Msg) : forall c,
  _loggedIn (final (forEach l dispatch c)) = true ->
  _loggedIn c = true
  \/ exists m st, m ∈ l /\ Domain m = Some "Login" /\ State m = Some st
                  /\ Data st = Some "Ok".
Proof.
  induction l as [|m l IH]; intros c; [by left|].
  simpl. unfold bind.
  pose proof (dispatch_logs_in m c) as Hm.
  destruct (dispatch m c) as [[[]|e] c1 ev1]; simpl in *.
  - specialize (IH c1).
    destruct (forEach l dispatch c1) as [r c2 ev2]. simpl in *.
    intros Hl. destruct (IH Hl) as [Hc1|(m' & st & Hin & Hrest)].
    + destruct (Hm Hc1) as [?|(Hd & st & Hst & Hok)]; [by left|].
      right. exists m, st. split; [by left | done].
    + right. exists m', st. split; [by right | done].
  - intros Hl. destruct (Hm Hl) as [?|(Hd & st & Hst & Hok)]; [by left|].
    right. exists m, st. split; [by left | done].
Qed.

(** X12.  A frame leaves the controller logged in only if it was logged in
    before or the frame holds a message of the login domain whose
    [State.Data] is "Ok". *)
Theorem logged_in_only_by_login_ok (msg : MessageData) c :
  _loggedIn (final (_onMessage msg c)) = true ->
  _loggedIn c = true
  \/ exists text frame m st,
       msg = TextData text /\ JSON_parse_frame text = Some frame
       /\ m ∈ frame /\ Domain m = Some "Login" /\ State m = Some st
       /\ Data st = Some "Ok".
Proof.
  destruct msg as [text|]; [|by left].
  unfold _onMessage.
  destruct (0 <? String.length text)%nat; [|by left].
  unfold try_catch, bind, call.
  destruct (JSON_parse_frame text) as [frame|] eqn:Hparse.
  - unfold ret at 1.
    pose proof (forEach_logs_in frame c) as Hf.
    destruct (forEach frame dispatch c) as [[[]|e] c1 ev1]; simpl in *.
    + intros Hl. destruct (Hf Hl) as [?|(m & st & Hrest)]; [by left|].
      right. by exists text, frame, m, st.
    + unfold report. run. destruct (_statusCb c1); simpl;
        intros Hl; (destruct (Hf Hl) as [?|(m & st & Hrest)]; [by left|]);
        right; by exists text, frame, m, st.
  - unfold throw, report. run. destruct (_statusCb c); simpl; by left.
Qed.

(** X13.  A frame of pings is answered with one pong for each ping, in
    order; nothing is reported and the controller is left as it was. *)
Theorem pings_answered (text : string) (frame : list Msg) c :
  text <> EmptyString -> JSON_parse_frame text = Some frame ->
  Forall (fun m => Type_ m = Some "Ping") frame ->
  _onMessage (TextData text) c
  = mkResult (Normal tt) c
      (if ws c then replicate (length frame) (WsSend Pong) else []).
Proof.
  intros Hne Hparse Hpings.
  assert (Hlen : (0 <? String.length text)%nat = true) by by destruct text.
  assert (Hloop : forEach frame dispatch c
                  = mkResult (Normal tt) c
                      (if ws c then replicate (length frame) (WsSend Pong)
                       else [])).
  { clear Hparse. induction Hpings as [|m frame Hm _ IH].
    - simpl. unfold ret. by destruct (ws c).
    - assert (Hping : dispatch m c
                      = mkResult (Normal tt) c
                          (if ws c then [WsSend Pong] else [])).
      { unfold dispatch. apply str_is_true in Hm. rewrite Hm. run.
        by destruct (ws c). }
      simpl. unfold bind. rewrite Hping, IH. by destruct (ws c). }
  unfold _onMessage. rewrite Hlen. unfold try_catch, bind, call.
  rewrite Hparse.
  change (ret frame c) with (mkResult (Normal frame) c []).
  cbv beta iota. by rewrite Hloop.
Qed.

End Frame.

(** ** More on the reassembler *)

Section Stories.
Context `{Platform}.
Implicit Types (c : Controller) (m : Msg) (e : Envelope).

(** X14.  A news update that is not a continuation and whose fragment is
    at least as long as the size it declares (or that declares none) is
    delivered at once: the news callback is called with the parsed
    document and the controller, the envelope table included, is left as
    it was. *)
Theorem whole_story_delivered_at_once m c ky fields frag strData contents g :
  news_update m ky fields frag -> js_gt (FRAG_NUM fields) 1 = false ->
  (forall tot, TOT_SIZE fields = Some tot ->
     tot <= Z.of_nat (String.length frag)) ->
  inflate (Uint8Array (charCodes frag)) = Some strData ->
  JSON_parse strData = Some contents -> _newsStoryCb c = Some g ->
  _processNewsEnvelope m c
  = mkResult (Normal tt) c [NewsCall g (Name ky) contents].
Proof.
  intros Hm Hn Htot Hi Hp Hcb.
  pose proof (news_update_guard _ _ _ _ Hm) as Hg.
  destruct Hm as (_ & _ & Hf & Hk & Ha).
  unfold _processNewsEnvelope. rewrite Hg, Hf, Hk. run. rewrite Ha, Hn.
  destruct (TOT_SIZE fields) as [tot|].
  - specialize (Htot tot eq_refl).
    destruct (Z.ltb_spec (Z.of_nat (String.length frag)) tot); [lia|].
    simpl. rewrite Hi, Hp. simpl. by rewrite Hcb.
  - simpl. rewrite Hi, Hp. simpl. by rewrite Hcb.
Qed.

(** X15.  For every message, the reassembler returns normally, changes
    nothing of the controller but the envelope table, sends nothing, and
    calls at most one function: either the status callback with
    [processingError], or the news callback with the message's content
    code. *)
Theorem reassembler_is_contained m c :
  completion (_processNewsEnvelope m c) = Normal tt
  /\ final (_processNewsEnvelope m c)
     = set_newsEnvelope (_newsEnvelope (final (_processNewsEnvelope m c))) c
  /\ (events (_processNewsEnvelope m c) = []
      \/ (exists f err,
            _statusCb c = Some f
            /\ events (_processNewsEnvelope m c)
               = [StatusCall f processingError (ErrorMessage err)])
      \/ (exists g ky contents,
            _newsStoryCb c = Some g /\ Key m = Some ky
            /\ events (_processNewsEnvelope m c)
               = [NewsCall g (Name ky) contents])).
Proof.
  split; [apply _processNewsEnvelope_returns|].
  split; [apply _processNewsEnvelope_frame|].
  unfold _processNewsEnvelope. run.
  repeat (case_match; simpl in *; simplify_eq; try (by left)).
  all: first [ by left
             | right; left; do 2 eexists; by split
             | right; right; do 3 eexists; by split_and! ].
Qed.

(** X16.  A step of the reassembler changes the entry of no key but the one
    the message is filed under; a message that is not a news update with a
    decodable fragment changes no entry. *)
Theorem reassembler_touches_own_key_only m c (k : string) :
  _newsEnvelope (final (_processNewsEnvelope m c)) !! k
  <> _newsEnvelope c !! k ->
  exists ky fields frag,
    news_update m ky fields frag /\ envelope_key ky fields = k.
Proof.
  intros Hdiff.
  destruct (_processNewsEnvelope_envelopes m c)
    as [Hsame|[(ky & fields & frag & tot & Hm & Hn & Hlt & Hnew)
              |(ky & fields & frag & e & Hm & Hn & He & Hcase)]].
  - by rewrite Hsame in Hdiff.
  - exists ky, fields, frag. split; [done|].
    destruct (decide (envelope_key ky fields = k)); [done|].
    rewrite Hnew, lookup_insert_ne in Hdiff by done. done.
  - exists ky, fields, frag. split; [done|].
    destruct (decide (envelope_key ky fields = k)); [done|].
    destruct Hcase as [[_ Hnew]|[_ Hnew]]; rewrite Hnew in Hdiff.
    + rewrite lookup_insert_ne in Hdiff by done. done.
    + rewrite lookup_delete_ne in Hdiff by done. done.
Qed.

(** X17.  When the fragment that completes an envelope leaves bytes that do
    not inflate, or inflate to a text that is not JSON, the envelope is
    removed all the same, the failure is reported, and the news callback is
    not called: the story is lost, not kept for a retry. *)
Theorem failed_story_is_discarded m c ky fields frag e :
  news_update m ky fields frag -> js_gt (FRAG_NUM fields) 1 = true ->
  _newsEnvelope c !! envelope_key ky fields = Some e ->
  totalSize e <= Z.of_nat (String.length (fragments e +:+ frag)) ->
  (inflate (Uint8Array (charCodes (fragments e +:+ frag))) = None ->
   _processNewsEnvelope m c
   = mkResult (Normal tt)
       (set_newsEnvelope (delete (envelope_key ky fields) (_newsEnvelope c)) c)
       match _statusCb c with
       | Some f => [StatusCall f processingError (ErrorMessage InflateError)]
       | None => []
       end)
  /\ (forall strData,
        inflate (Uint8Array (charCodes (fragments e +:+ frag))) = Some strData ->
        JSON_parse strData = None ->
        _processNewsEnvelope m c
        = mkResult (Normal tt)
            (set_newsEnvelope
               (delete (envelope_key ky fields) (_newsEnvelope c)) c)
            match _statusCb c with
            | Some f =>
                [StatusCall f processingError (ErrorMessage SyntaxError)]
            | None => []
            end).
Proof.
  intros Hm Hn He Hge.
  pose proof (news_update_guard _ _ _ _ Hm) as Hg.
  destruct Hm as (_ & _ & Hf & Hk & Ha).
  unfold _processNewsEnvelope. rewrite Hg, Hf, Hk. run. rewrite Ha, Hn, He.
  simpl.
  destruct (Z.ltb_spec (Z.of_nat (String.length (fragments e +:+ frag)))
              (totalSize e)); [lia|].
  simpl. split.
  - intros ->. simpl. rewrite delete_insert_eq. by destruct (_statusCb c).
  - intros strData -> Hp. simpl. rewrite Hp. simpl.
    rewrite delete_insert_eq. by destruct (_statusCb c).
Qed.

End Stories.

(** ** Connecting again *)

(** X18.  [_onOpen] reports the connection and then sends the login
    request with the identifier [_getID] returns; it does not reset the
    table.  So when every slot of a lost session is still marked in use,
    the login of the next connection is given a new slot at the end of the
    table, not slot 0. *)
Theorem _onOpen_logs_in_with_next_slot (c : Controller) :
  (exists i : nat,
      completion (_getID c) = Normal (Z.of_nat i)
      /\ _onOpen c
         = mkResult (Normal tt) (final (_getID c))
             (match _statusCb c with
              | Some f => [StatusCall f connected NoPayload]
              | None => []
              end
              ++ (if ws c
                  then [WsSend (LoginRequest (Z.of_nat i)
                                  (user (_loginParams c))
                                  (appId (_loginParams c))
                                  (position (_loginParams c)))]
                  else [])))
  /\ (Forall (fun s => used s = true) (_requestIDs c) ->
      _onOpen (final (_onClose c))
      = mkResult (Normal tt)
          (set_requestIDs (_requestIDs c ++ [mkSlot true Null])
             (set_loggedIn false c))
          (match _statusCb c with
           | Some f => [StatusCall f connected NoPayload]
           | None => []
           end
           ++ (if ws c
               then [WsSend (LoginRequest (Z.of_nat (length (_requestIDs c)))
                               (user (_loginParams c))
                               (appId (_loginParams c))
                               (position (_loginParams c)))]
               else []))).
Proof.
  assert (Hopen : forall c0,
            exists i : nat,
              completion (_getID c0) = Normal (Z.of_nat i)
              /\ _onOpen c0
                 = mkResult (Normal tt) (final (_getID c0))
                     (match _statusCb c0 with
                      | Some f => [StatusCall f connected NoPayload]
                      | None => []
                      end
                      ++ (if ws c0
                          then [WsSend (LoginRequest (Z.of_nat i)
                                          (user (_loginParams c0))
                                          (appId (_loginParams c0))
                                          (position (_loginParams c0)))]
                          else []))).
  { intros c0. destruct (_getID_frame c0) as (Hev & Hfr & i & Hc).
    exists i. split; [done|]. unfold _onOpen, _login. run.
    destruct (_statusCb c0); cbv beta iota zeta;
      destruct (_getID c0) as [r c1 ev1]; simpl in *; subst r ev1;
      rewrite Hfr; simpl; by destruct (ws c0). }
  split; [apply Hopen|].
  intros Hused.
  assert (Hnone : Forall (fun s => ~ free s)
                    (_requestIDs (final (_onClose c)))).
  { rewrite _onClose_result. simpl. eapply Forall_impl; [exact Hused|].
    unfold free. intros s Hs. congruence. }
  destruct (_getID_grow _ Hnone) as [Hc Hl].
  destruct (_getID_frame (final (_onClose c))) as (_ & Hfr & _).
  destruct (Hopen (final (_onClose c))) as (i & Hi & Hrun).
  rewrite Hc in Hi. injection Hi as Hi. apply Nat2Z.inj in Hi. subst i.
  rewrite Hrun, Hfr, Hl. by rewrite _onClose_result.
Qed.

(** ** Stories in flight together *)

Section Interleaving.
Context `{Platform}.
Implicit Types (c : Controller) (m : Msg) (e : Envelope).

Lemma reassemble_app (l1 l2 : list Msg) : forall c,
  reassemble (l1 ++ l2) c
  = ((reassemble l2 (reassemble l1 c).1).1,
     (reassemble l1 c).2 ++ (reassemble l2 (reassemble l1 c).1).2).
Proof.
  induction l1 as [|m l1 IH]; intros c.
  - simpl. by destruct (reassemble l2 c).
  - simpl. rewrite IH.
    destruct (reassemble l1 (final (_processNewsEnvelope m c))) as [c1 ev1].
    simpl. destruct (reassemble l2 c1) as [c2 ev2]. simpl.
    by rewrite app_assoc.
Qed.

Lemma foreign_step (k : string) m c :
  foreign k m ->
  _newsEnvelope (final (_processNewsEnvelope m c)) !! k = _newsEnvelope c !! k.
Proof.
  intros Hfor.
  destruct (_processNewsEnvelope_envelopes m c)
    as [Hsame|[(ky & fields & frag & tot & Hm & Hn & Hlt & Hnew)
              |(ky & fields & frag & e & Hm & Hn & He & Hcase)]].
  - by rewrite Hsame.
  - rewrite Hnew. apply lookup_insert_ne. by eapply Hfor.
  - destruct Hcase as [[_ Hnew]|[_ Hnew]]; rewrite Hnew.
    + apply lookup_insert_ne. by eapply Hfor.
    + apply lookup_delete_ne. by eapply Hfor.
Qed.

Lemma foreign_run (k : string) (l : list Msg) : forall c,
  Forall (foreign k) l ->
  _newsEnvelope (reassemble l c).1 !! k = _newsEnvelope c !! k
  /\ _newsStoryCb (reassemble l c).1 = _newsStoryCb c.
Proof.
  induction l as [|m l IH]; intros c Hfor; [done|].
  apply Forall_cons in Hfor as [Hm Hl]. simpl.
  specialize (IH (final (_processNewsEnvelope m c)) Hl).
  destruct (reassemble l (final (_processNewsEnvelope m c))) as [c1 ev1].
  simpl in *. destruct IH as [IHe IHcb]. split.
  - rewrite IHe. by apply foreign_step.
  - rewrite IHcb. by rewrite _processNewsEnvelope_frame.
Qed.

Lemma interleaved_tail ky src guid tot strData contents g :
  forall bs ms ds gaps n acc c,
    2 <= n -> ds <> [] ->
    is_story_from ky src guid n bs ms ->
    Forall2 (fun b d => atob b = Some d) bs ds ->
    length gaps = length ms ->
    Forall (Forall (foreign (story_key (Name ky) src guid))) gaps ->
    _newsEnvelope c !! story_key (Name ky) src guid
    = Some (mkEnvelope acc tot) ->
    Z.of_nat (String.length (acc +:+ joined ds)) = tot ->
    last ds <> Some EmptyString ->
    inflate (Uint8Array (charCodes (acc +:+ joined ds))) = Some strData ->
    JSON_parse strData = Some contents ->
    _newsStoryCb c = Some g ->
    (exists ev0, (reassemble (interleave gaps ms) c).2
                 = ev0 ++ [NewsCall g (Name ky) contents])
    /\ _newsEnvelope (reassemble (interleave gaps ms) c).1
       !! story_key (Name ky) src guid = None.
Proof.
  induction bs as [|b bs IH]; intros ms ds gaps n acc c Hn Hne Hstory Hdec
    Hgaps Hfor He Hlen Hlast Hinf Hparse Hcb.
  { apply Forall2_nil_inv_l in Hdec. done. }
  destruct ms as [|m ms]; [done|]. destruct Hstory as [Hm Hrest].
  destruct ds as [|d ds']; [done|].
  apply Forall2_cons in Hdec as [Hb Hdec'].
  destruct gaps as [|gap gaps]; [done|].
  apply Forall_cons in Hfor as [Hgap Hfor]. simpl in Hgaps.
  destruct Hm as (Ht & Hd & Hk & fields & Hf & Hfrag & Hnum & Hsrc & Hguid).
  assert (Hupd : news_update m ky fields d).
  { unfold news_update. rewrite Hfrag. simpl. auto. }
  assert (Hkey : envelope_key ky fields = story_key (Name ky) src guid).
  { unfold envelope_key. by rewrite Hsrc, Hguid. }
  assert (Hgt : js_gt (FRAG_NUM fields) 1 = true).
  { rewrite Hnum. simpl. apply Z.ltb_lt. lia. }
  destruct (foreign_run _ gap c Hgap) as [Hge Hgcb].
  set (c1 := (reassemble gap c).1) in *.
  rewrite He in Hge. rewrite Hcb in Hgcb. rewrite <- Hkey in Hge.
  cbn [interleave]. rewrite reassemble_app. fold c1. cbn [fst snd].
  simpl in Hlen, Hinf. rewrite <- string_append_assoc in Hlen, Hinf.
  cbn [reassemble].
  destruct ds' as [|d' ds'].
  - apply Forall2_nil_inv_r in Hdec'. subst bs. destruct ms; [|done].
    destruct gaps; [|done].
    simpl in Hlen, Hinf. rewrite string_append_empty_r in Hlen, Hinf.
    rewrite (continuation_completes m c1 ky fields d (mkEnvelope acc tot)
               strData contents g); simpl; auto; [|lia].
    split.
    + by exists (reassemble gap c).2.
    + rewrite <- Hkey. apply lookup_delete_eq.
  - assert (0 < String.length (joined (d' :: ds')))%nat as Hpos.
    { apply joined_nonempty; [done|]. by rewrite last_cons_cons in Hlast. }
    rewrite string_length_append in Hlen.
    rewrite (continuation_kept m c1 ky fields d (mkEnvelope acc tot)
               Hupd Hgt Hge) by (simpl; lia).
    cbn [final events totalSize fragments].
    destruct (IH ms (d' :: ds') gaps (n + 1) (acc +:+ d)
                (set_newsEnvelope
                   (<[envelope_key ky fields
                      := mkEnvelope (acc +:+ d) tot]> (_newsEnvelope c1)) c1))
      as [(ev0 & Hev) Hend]; simpl; auto; try lia.
    + by rewrite Hkey, lookup_insert_eq.
    + simpl in *. rewrite ?string_length_append in *. lia.
    + destruct (reassemble (interleave gaps ms) _) as [c2 ev2].
      simpl in *. split; [|done].
      exists ((reassemble gap c).2 ++ ev0). rewrite Hev.
      by rewrite app_assoc.
Qed.

(** X19.  A story is reassembled whatever arrives between its fragments,
    as long as none of the messages in between is a news update under the
    story's key.  The story is as in the single-story case: two or more
    fragments numbered 1, 2, ... under one key, decoded lengths summing to
    the size the first declares, the last fragment not empty (so that the
    size is reached at the last fragment and not before), the
    concatenation inflating to a text that parses, and a news callback
    registered.  Then the run ends with the call of the news callback on
    the story's document, and leaves no envelope under the story's key. *)
Theorem story_survives_interleaving c ky src guid tot first rest b1 bs d1 ds
    strData contents g (gaps : list (list Msg)) :
  is_fragment ky src guid 1 b1 first -> declared_size first tot ->
  is_story_from ky src guid 2 bs rest -> rest <> [] ->
  atob b1 = Some d1 -> Forall2 (fun b d => atob b = Some d) bs ds ->
  Z.of_nat (String.length (joined (d1 :: ds))) = tot ->
  last ds <> Some EmptyString ->
  inflate (Uint8Array (charCodes (joined (d1 :: ds)))) = Some strData ->
  JSON_parse strData = Some contents ->
  _newsStoryCb c = Some g ->
  length gaps = length (first :: rest) ->
  Forall (Forall (foreign (story_key (Name ky) src guid))) gaps ->
  (exists ev0, (reassemble (interleave gaps (first :: rest)) c).2
               = ev0 ++ [NewsCall g (Name ky) contents])
  /\ _newsEnvelope (reassemble (interleave gaps (first :: rest)) c).1
     !! story_key (Name ky) src guid = None.
Proof.
  intros Hfirst Hsize Hstory Hrest Hb1 Hdec Hlen Hlast Hinf Hparse Hcb Hgaps
    Hfor.
  assert (Hds : ds <> []).
  { intros ->. apply Forall2_nil_inv_r in Hdec. subst bs.
    destruct rest; [done|]. done. }
  destruct gaps as [|gap gaps]; [done|].
  apply Forall_cons in Hfor as [Hgap Hfor]. simpl in Hgaps.
  destruct Hfirst as (Ht & Hd & Hk & fields & Hf & Hfrag & Hnum & Hsrc
                      & Hguid).
  destruct Hsize as (fields' & Hf' & Htot).
  assert (fields' = fields) by congruence. subst fields'.
  assert (Hupd : news_update first ky fields d1).
  { unfold news_update. rewrite Hfrag. simpl. auto. }
  assert (Hkey : envelope_key ky fields = story_key (Name ky) src guid).
  { unfold envelope_key. by rewrite Hsrc, Hguid. }
  assert (Hpos : (0 < String.length (joined ds))%nat)
    by by apply joined_nonempty.
  simpl in Hlen, Hinf. rewrite string_length_append in Hlen.
  destruct (foreign_run _ gap c Hgap) as [_ Hgcb].
  set (c1 := (reassemble gap c).1) in *. rewrite Hcb in Hgcb.
  cbn [interleave]. rewrite reassemble_app. fold c1. cbn [fst snd].
  cbn [reassemble].
  rewrite (first_fragment_stored first c1 ky fields d1 tot Hupd);
    [|by rewrite Hnum|done|lia].
  cbn [final events].
  destruct (interleaved_tail ky src guid tot strData contents g bs rest ds
              gaps 2 d1
              (set_newsEnvelope
                 (<[envelope_key ky fields := mkEnvelope d1 tot]>
                    (_newsEnvelope c1)) c1))
    as [(ev0 & Hev) Hend]; simpl; auto; try lia.
  - by rewrite Hkey, lookup_insert_eq.
  - rewrite string_length_append. lia.
  - destruct (reassemble (interleave gaps rest) _) as [c2 ev2].
    simpl in *. split; [|done].
    exists ((reassemble gap c).2 ++ ev0). rewrite Hev. by rewrite app_assoc.
Qed.

End Interleaving.

(** ** From [connect] to the login request, and messages after a close *)

Section Session.
Context `{Platform}.
Implicit Types (c : Controller) (m : Msg) (s : Slot).

(** X20.  On a controller with an empty table, as a new one has, [connect]
    followed by the socket's open event creates the socket for
    [ws://server/WebSocket] with the protocol [tr_json2], reports
    [connected], and sends the login request with identifier 0, the user
    given, and the application id and position given or else "256" and
    "127.0.0.1"; slot 0 is then in use. *)
Theorem connect_then_open_logs_in c server usr (app pos : option string) :
  _requestIDs c = [] ->
  (connect server usr app pos ;;; _onOpen) c
  = mkResult (Normal tt)
      (set_requestIDs [mkSlot true Null]
         (set_connection
            (mkLoginParams usr (Some (default "256" app))
               (default "127.0.0.1" pos)) c))
      (NewWebSocket ("ws://" +:+ server +:+ "/WebSocket") "tr_json2"
       :: match _statusCb c with
          | Some f => [StatusCall f connected NoPayload]
          | None => []
          end
       ++ [WsSend (LoginRequest 0 usr (Some (default "256" app))
                     (default "127.0.0.1" pos))]).
Proof.
  intros Hempty. unfold connect, _onOpen, _login, report, _getID.
  run. cbn [_statusCb set_connection].
  destruct (_statusCb c); cbn [_requestIDs set_connection];
    rewrite Hempty; simpl; by destruct app, pos.
Qed.

(** X21.  Closing a request does not take its callback away: a data
    message that arrives for the closed identifier and is not a "Refresh"
    without [State] is still delivered to the function the request was made
    with.  A "Refresh" without [State] throws at the read of
    [data.State.Stream], before the function is called. *)
Theorem closed_request_still_delivers c (i : nat) s (f : userfn) m :
  _requestIDs c !! i = Some s -> processingCb s = Fn (UserFn f) ->
  data_message m -> Id m = Some (Z.of_nat i) ->
  ((Type_ m = Some "Refresh" -> State m <> None) ->
   events (dispatch m (final (closeRequest (Z.of_nat i) c)))
   = [DataCall f m])
  /\ (Type_ m = Some "Refresh" -> State m = None ->
      completion (dispatch m (final (closeRequest (Z.of_nat i) c)))
      = Throw (TypeError "Stream")
      /\ events (dispatch m (final (closeRequest (Z.of_nat i) c))) = []).
Proof.
  intros Hs Hcb Hdata Hid.
  rewrite (closeRequest_known c i s Hs). cbn [final]. split.
  - intros Hst.
    eapply (dispatch_data_known m _ (Z.of_nat i)
              (mkSlot false (processingCb s))); try done.
    rewrite slot_at_nat. cbn [_requestIDs set_requestIDs].
    apply list_lookup_insert_eq. by eapply lookup_lt_Some.
  - intros Hty Hnone.
    by rewrite (dispatch_refresh_stateless m _ Hdata Hty Hnone).
Qed.

End Session.

Lemma connect_then_open_logs_in_witness :
  (connect "wsServer:14002" "user" None None ;;; _onOpen)
    TRWebSocketController
  = mkResult (Normal tt)
      (set_requestIDs [mkSlot true Null]
         (set_connection (mkLoginParams "user" (Some "256") "127.0.0.1")
            TRWebSocketController))
      [NewWebSocket "ws://wsServer:14002/WebSocket" "tr_json2";
       WsSend (LoginRequest 0 "user" (Some "256") "127.0.0.1")].
Proof.
  exact (connect_then_open_logs_in TRWebSocketController "wsServer:14002"
           "user" None None eq_refl).
Defined.

Lemma closed_request_still_delivers_witness :
  events
    (dispatch (H := Demo.platform) Sample.late_update
       (final (closeRequest 1 Sample.session)))
  = [DataCall 2%nat Sample.late_update]
  /\ (completion
        (dispatch (H := Demo.platform)
           (mkMsg (Some "Refresh") (Some "MarketPrice") (Some 1) None None
              None)
           (final (closeRequest 1 Sample.session)))
      = Throw (TypeError "Stream")
      /\ events
           (dispatch (H := Demo.platform)
              (mkMsg (Some "Refresh") (Some "MarketPrice") (Some 1) None None
                 None)
              (final (closeRequest 1 Sample.session)))
         = []).
Proof.
  split.
  - apply (proj1 (closed_request_still_delivers (H := Demo.platform)
                    Sample.session 1 (mkSlot true (Fn (UserFn 2%nat))) 2%nat
                    Sample.late_update eq_refl eq_refl
                    ltac:(by split_and!) eq_refl)).
    discriminate.
  - apply (proj2 (closed_request_still_delivers (H := Demo.platform)
                    Sample.session 1 (mkSlot true (Fn (UserFn 2%nat))) 2%nat
                    (mkMsg (Some "Refresh") (Some "MarketPrice") (Some 1) None
                       None None)
                    eq_refl eq_refl ltac:(by split_and!) eq_refl));
      reflexivity.
Defined.

(** ** The properties on the sample session *)

Lemma closeRequest_frees_slot_witness :
  closeRequest 1 Sample.session
  = mkResult (Normal tt)
      (set_requestIDs
         [mkSlot true Null; mkSlot false (Fn (UserFn 2%nat));
          mkSlot true (Fn ProcessNewsEnvelope)] Sample.session)
      [WsSend (CloseRequest 1)]
  /\ closeRequest 1 (final (closeRequest 1 Sample.session))
     = mkResult (Normal tt) (final (closeRequest 1 Sample.session))
         [WsSend (CloseRequest 1)].
Proof.
  split.
  - exact (proj1 (closeRequest_frees_slot Sample.session 1
                    (mkSlot true (Fn (UserFn 2%nat))) eq_refl)).
  - exact (proj2 (closeRequest_frees_slot
                    (final (closeRequest 1 Sample.session)) 1
                    (mkSlot false (Fn (UserFn 2%nat))) eq_refl) eq_refl).
Defined.

Lemma callback_set_then_get_witness :
  completion
    (_getCallback (Some 1)
       (final (_setCallback (Some 1) (Fn ProcessNewsEnvelope) Sample.session)))
  = Normal (Fn ProcessNewsEnvelope)
  /\ _getCallback (Some 9) Sample.session
     = mkResult (Normal Undefined) Sample.session [].
Proof.
  split.
  - exact (proj1 (proj1 (callback_set_then_get Sample.session (Some 1)
                           (Fn ProcessNewsEnvelope))
                    (mkSlot true (Fn (UserFn 2%nat))) eq_refl)).
  - exact (proj2 (proj2 (callback_set_then_get Sample.session (Some 9) Null)
                    eq_refl)).
Defined.

Lemma requestData_allocates_and_sends_witness :
  exists i : nat,
    completion
      (requestData "TRI.N" "ELEKTRON_SERVICE" true "MarketPrice"
         Sample.session)
    = Normal (Z.of_nat i)
    /\ _requestIDs
         (final (requestData "TRI.N" "ELEKTRON_SERVICE" true "MarketPrice"
                   Sample.session)) !! i
       = Some (mkSlot true (Fn (UserFn 2%nat)))
    /\ events
         (requestData "TRI.N" "ELEKTRON_SERVICE" true "MarketPrice"
            Sample.session)
       = [WsSend (ItemRequest (Z.of_nat i) true "MarketPrice" "TRI.N"
                    "ELEKTRON_SERVICE")].
Proof.
  destruct (requestData_allocates_and_sends Sample.session "TRI.N"
              "ELEKTRON_SERVICE" true "MarketPrice" eq_refl)
    as (i & Hc & _ & Hslot & _ & Hev & _).
  exists i. by split_and!.
Defined.

Lemma requestNews_registers_reassembler_witness :
  exists i : nat,
    completion (requestNews "ELEKTRON_SERVICE" "MRN_STORY" Sample.session)
    = Normal (Z.of_nat i)
    /\ _requestIDs
         (final (requestNews "ELEKTRON_SERVICE" "MRN_STORY" Sample.session))
       !! i
       = Some (mkSlot true (Fn ProcessNewsEnvelope)).
Proof.
  destruct (requestNews_registers_reassembler Sample.session
              "ELEKTRON_SERVICE" "MRN_STORY" eq_refl)
    as (i & Hc & _ & Hslot & _).
  exists i. by split.
Defined.

Lemma successive_requests_differ_witness : (3 : Z) <> 4.
Proof.
  exact (successive_requests_differ Sample.session "TRI.N" "ELEKTRON_SERVICE"
           true "MarketPrice" "IBM.N" "ELEKTRON_SERVICE" true "MarketPrice"
           3 4 eq_refl eq_refl eq_refl).
Defined.

Lemma request_keeps_callback_of_its_time_witness :
  events
    (dispatch (H := Demo.platform)
       (mkMsg (Some "Update") (Some "MarketPrice") (Some 3) None
          (Some (mkKey (Some "TRI.N"))) None)
       (final (onMarketData (Some 7%nat)
                 (final (requestData "TRI.N" "ELEKTRON_SERVICE" true
                           "MarketPrice" Sample.session)))))
  = [DataCall 2%nat
       (mkMsg (Some "Update") (Some "MarketPrice") (Some 3) None
          (Some (mkKey (Some "TRI.N"))) None)]
  /\ (completion
        (dispatch (H := Demo.platform)
           (mkMsg (Some "Refresh") (Some "MarketPrice") (Some 3) None None
              None)
           (final (onMarketData (Some 7%nat)
                     (final (requestData "TRI.N" "ELEKTRON_SERVICE" true
                               "MarketPrice" Sample.session)))))
      = Throw (TypeError "Stream")
      /\ events
           (dispatch (H := Demo.platform)
              (mkMsg (Some "Refresh") (Some "MarketPrice") (Some 3) None None
                 None)
              (final (onMarketData (Some 7%nat)
                        (final (requestData "TRI.N" "ELEKTRON_SERVICE" true
                                  "MarketPrice" Sample.session)))))
         = []).
Proof.
  split.
  - apply (proj1 (request_keeps_callback_of_its_time (H := Demo.platform)
                    Sample.session "TRI.N" "ELEKTRON_SERVICE" true
                    "MarketPrice" 3 (Some 7%nat)
                    (mkMsg (Some "Update") (Some "MarketPrice") (Some 3) None
                       (Some (mkKey (Some "TRI.N"))) None)
                    eq_refl eq_refl ltac:(by split_and!) eq_refl)).
    discriminate.
  - apply (proj2 (request_keeps_callback_of_its_time (H := Demo.platform)
                    Sample.session "TRI.N" "ELEKTRON_SERVICE" true
                    "MarketPrice" 3 (Some 7%nat)
                    (mkMsg (Some "Refresh") (Some "MarketPrice") (Some 3) None
                       None None)
                    eq_refl eq_refl ltac:(by split_and!) eq_refl));
      reflexivity.
Defined.

Lemma unknown_id_dropped_or_thrown_witness :
  dispatch (H := Demo.platform)
    (mkMsg (Some "Update") (Some "MarketPrice") (Some 9) None None None)
    Sample.session
  = mkResult (Normal tt) (set_msgCb Undefined Sample.session) []
  /\ dispatch (H := Demo.platform)
       (mkMsg (Some "Refresh") (Some "MarketPrice") (Some 9)
          (Some (mkState (Some "NonStreaming") (Some "Ok"))) None None)
       Sample.session
     = mkResult (Throw (TypeError "used")) (set_msgCb Undefined Sample.session)
         []
  /\ dispatch (H := Demo.platform)
       (mkMsg (Some "Refresh") (Some "MarketPrice") (Some 9) None None None)
       Sample.session
     = mkResult (Throw (TypeError "Stream"))
         (set_msgCb Undefined Sample.session) [].
Proof.
  split_and!.
  - apply (proj1 (unknown_id_dropped_or_thrown (H := Demo.platform)
                    Sample.session
                    (mkMsg (Some "Update") (Some "MarketPrice") (Some 9) None
                       None None)
                    ltac:(by split_and!) eq_refl)); discriminate.
  - apply (proj1 (proj2 (unknown_id_dropped_or_thrown (H := Demo.platform)
                           Sample.session
                           (mkMsg (Some "Refresh") (Some "MarketPrice")
                              (Some 9)
                              (Some (mkState (Some "NonStreaming")
                                       (Some "Ok")))
                              None None)
                           ltac:(by split_and!) eq_refl))
             (mkState (Some "NonStreaming") (Some "Ok")));
      reflexivity.
  - apply (proj2 (proj2 (unknown_id_dropped_or_thrown (H := Demo.platform)
                           Sample.session
                           (mkMsg (Some "Refresh") (Some "MarketPrice")
                              (Some 9) None None None)
                           ltac:(by split_and!) eq_refl)));
      reflexivity.
Defined.

Lemma status_message_dispatch_witness :
  dispatch (H := Demo.platform)
    (mkMsg (Some "Status") (Some "MarketPrice") (Some 1)
       (Some (mkState (Some "Closed") (Some "Suspect"))) None None)
    Sample.session
  = mkResult (Normal tt)
      (set_requestIDs
         [mkSlot true Null; mkSlot false (Fn (UserFn 2%nat));
          mkSlot true (Fn ProcessNewsEnvelope)] Sample.session)
      [StatusCall 1%nat msgStatus
         (Message
            (mkMsg (Some "Status") (Some "MarketPrice") (Some 1)
               (Some (mkState (Some "Closed") (Some "Suspect"))) None None))]
  /\ dispatch (H := Demo.platform) Sample.closed_unknown Sample.session
     = mkResult (Throw (TypeError "used")) Sample.session [].
Proof.
  split.
  - exact (proj1 (proj2 (status_message_dispatch (H := Demo.platform)
                           Sample.session
                           (mkMsg (Some "Status") (Some "MarketPrice") (Some 1)
                              (Some (mkState (Some "Closed") (Some "Suspect")))
                              None None)
                           (mkState (Some "Closed") (Some "Suspect"))
                           eq_refl ltac:(discriminate) eq_refl))
             1%nat (mkSlot true (Fn (UserFn 2%nat))) eq_refl eq_refl eq_refl).
  - exact (proj2 (proj2 (status_message_dispatch (H := Demo.platform)
                           Sample.session Sample.closed_unknown
                           (mkState (Some "Closed") (Some "Suspect"))
                           eq_refl ltac:(discriminate) eq_refl))
             eq_refl eq_refl).
Defined.

Lemma logged_in_only_by_login_ok_witness :
  _loggedIn Sample.connecting = true
  \/ exists text frame m st,
       TextData ("[" +:+ Sample.login_ok_text +:+ "]") = TextData text
       /\ Demo.parse_frame text = Some frame
       /\ m ∈ frame /\ Domain m = Some "Login" /\ State m = Some st
       /\ Data st = Some "Ok".
Proof.
  apply (logged_in_only_by_login_ok (H := Demo.platform)
           (TextData ("[" +:+ Sample.login_ok_text +:+ "]"))
           Sample.connecting).
  vm_compute. reflexivity.
Defined.

Lemma pings_answered_witness :
  _onMessage (H := Demo.platform)
    (TextData ("[" +:+ Sample.ping_text +:+ "," +:+ Sample.ping_text +:+ "]"))
    Sample.session
  = mkResult (Normal tt) Sample.session [WsSend Pong; WsSend Pong].
Proof.
  apply (pings_answered (H := Demo.platform)
           ("[" +:+ Sample.ping_text +:+ "," +:+ Sample.ping_text +:+ "]")
           [Sample.ping; Sample.ping] Sample.session).
  - vm_compute. discriminate.
  - vm_compute. reflexivity.
  - by repeat constructor.
Defined.

Lemma whole_story_delivered_at_once_witness :
  _processNewsEnvelope (H := Demo.platform)
    (Sample.news 1 18 "eAEBBwD4/1sxLDIsM10GlQGn") Sample.session
  = mkResult (Normal tt) Sample.session
      [NewsCall 3%nat (Some "MRN_STORY") (JArr [JNum 1; JNum 2; JNum 3])].
Proof.
  apply (whole_story_delivered_at_once (H := Demo.platform)
           (Sample.news 1 18 "eAEBBwD4/1sxLDIsM10GlQGn") Sample.session
           (mkKey (Some "MRN_STORY"))
           (mkFields (Some "eAEBBwD4/1sxLDIsM10GlQGn") (Some 1) (Some 18)
              (Some "guid-1") (Some "SRC"))
           (default EmptyString
              (Demo.base64_decode "eAEBBwD4/1sxLDIsM10GlQGn"))
           "[1,2,3]").
  - by split_and!.
  - reflexivity.
  - intros tot [= <-]. vm_compute. discriminate.
  - reflexivity.
  - reflexivity.
  - reflexivity.
Defined.

Lemma reassembler_touches_own_key_only_witness :
  exists ky fields frag,
    news_update (H := Demo.platform) (Sample.news 1 18 "eAEBBwD4") ky fields
      frag
    /\ envelope_key ky fields
       = story_key (Some "MRN_STORY") (Some "SRC") (Some "guid-1").
Proof.
  apply (reassembler_touches_own_key_only (H := Demo.platform)
           (Sample.news 1 18 "eAEBBwD4") Sample.session).
  rewrite (first_fragment_stored (H := Demo.platform)
             (Sample.news 1 18 "eAEBBwD4") Sample.session
             (mkKey (Some "MRN_STORY"))
             (mkFields (Some "eAEBBwD4") (Some 1) (Some 18) (Some "guid-1")
                (Some "SRC"))
             (default EmptyString (Demo.base64_decode "eAEBBwD4")) 18);
    [|by split_and!|reflexivity|reflexivity|vm_compute; reflexivity].
  cbn [final _newsEnvelope set_newsEnvelope].
  change (envelope_key _ _)
    with (story_key (Some "MRN_STORY") (Some "SRC") (Some "guid-1")).
  rewrite lookup_insert_eq. change (_newsEnvelope Sample.session) with
    (∅ : gmap string Envelope).
  by rewrite lookup_empty.
Defined.

Lemma failed_story_is_discarded_witness :
  _processNewsEnvelope (H := Demo.platform)
    (Sample.news 2 18 "AAAAAAAAAAAAAAAA") Sample.midstory
  = mkResult (Normal tt)
      (set_newsEnvelope
         (delete (story_key (Some "MRN_STORY") (Some "SRC") (Some "guid-1"))
            (_newsEnvelope Sample.midstory)) Sample.midstory)
      [StatusCall 1%nat processingError (ErrorMessage InflateError)]
  /\ _processNewsEnvelope (H := Demo.platform)
       (Sample.news 2 18 "/3tvb3BzISELpQJ/") Sample.midstory
     = mkResult (Normal tt)
         (set_newsEnvelope
            (delete (story_key (Some "MRN_STORY") (Some "SRC") (Some "guid-1"))
               (_newsEnvelope Sample.midstory)) Sample.midstory)
         [StatusCall 1%nat processingError (ErrorMessage SyntaxError)].
Proof.
  assert (Hmid : _newsEnvelope Sample.midstory
                 !! story_key (Some "MRN_STORY") (Some "SRC") (Some "guid-1")
                 = Some (mkEnvelope
                           (default EmptyString
                              (Demo.base64_decode "eAEBBwD4")) 18)).
  { unfold Sample.midstory.
    rewrite (first_fragment_stored (H := Demo.platform)
               (Sample.news 1 18 "eAEBBwD4") Sample.session
               (mkKey (Some "MRN_STORY"))
               (mkFields (Some "eAEBBwD4") (Some 1) (Some 18) (Some "guid-1")
                  (Some "SRC"))
               (default EmptyString (Demo.base64_decode "eAEBBwD4")) 18);
      [|by split_and!|reflexivity|reflexivity|vm_compute; reflexivity].
    apply lookup_insert_eq. }
  split.
  - apply (proj1 (failed_story_is_discarded (H := Demo.platform)
                    (Sample.news 2 18 "AAAAAAAAAAAAAAAA") Sample.midstory
                    (mkKey (Some "MRN_STORY"))
                    (mkFields (Some "AAAAAAAAAAAAAAAA") (Some 2) (Some 18)
                       (Some "guid-1") (Some "SRC"))
                    (default EmptyString
                       (Demo.base64_decode "AAAAAAAAAAAAAAAA"))
                    _ ltac:(by split_and!) eq_refl Hmid
                    ltac:(vm_compute; discriminate))).
    vm_compute. reflexivity.
  - apply (proj2 (failed_story_is_discarded (H := Demo.platform)
                    (Sample.news 2 18 "/3tvb3BzISELpQJ/") Sample.midstory
                    (mkKey (Some "MRN_STORY"))
                    (mkFields (Some "/3tvb3BzISELpQJ/") (Some 2) (Some 18)
                       (Some "guid-1") (Some "SRC"))
                    (default EmptyString
                       (Demo.base64_decode "/3tvb3BzISELpQJ/"))
                    _ ltac:(by split_and!) eq_refl Hmid
                    ltac:(vm_compute; discriminate))
             "{oops!!").
    + vm_compute. reflexivity.
    + vm_compute. reflexivity.
Defined.

Lemma _onOpen_logs_in_with_next_slot_witness :
  _onOpen (final (_onClose Sample.session))
  = mkResult (Normal tt)
      (set_requestIDs
         (_requestIDs Sample.session ++ [mkSlot true Null])
         (set_loggedIn false Sample.session))
      [StatusCall 1%nat connected NoPayload;
       WsSend (LoginRequest 3 "user" (Some "256") "127.0.0.1")].
Proof.
  apply (proj2 (_onOpen_logs_in_with_next_slot Sample.session)).
  by repeat constructor.
Defined.

Lemma story_survives_interleaving_witness :
  (exists ev0,
      (reassemble (H := Demo.platform)
         (interleave
            [[Sample.ping];
             [mkMsg (Some "Update") (Some MRN_DOMAIN) (Some 2) None
                (Some (mkKey (Some "MRN_STORY")))
                (Some (mkFields (Some "eAEBBwD4") (Some 1) (Some 18)
                         (Some "guid-2") (Some "SRC")))];
             []]
            Sample.story)
         Sample.session).2
      = ev0 ++ [NewsCall 3%nat (Some "MRN_STORY")
                  (JArr [JNum 1; JNum 2; JNum 3])])
  /\ _newsEnvelope
       (reassemble (H := Demo.platform)
          (interleave
             [[Sample.ping];
              [mkMsg (Some "Update") (Some MRN_DOMAIN) (Some 2) None
                 (Some (mkKey (Some "MRN_STORY")))
                 (Some (mkFields (Some "eAEBBwD4") (Some 1) (Some 18)
                          (Some "guid-2") (Some "SRC")))];
              []]
             Sample.story)
          Sample.session).1
     !! story_key (Some "MRN_STORY") (Some "SRC") (Some "guid-1") = None.
Proof.
  refine (story_survives_interleaving (H := Demo.platform) Sample.session
            (mkKey (Some "MRN_STORY")) (Some "SRC") (Some "guid-1") 18
            (Sample.news 1 18 "eAEBBwD4")
            [Sample.news 2 18 "/1sxLDIs"; Sample.news 3 18 "M10GlQGn"]
            "eAEBBwD4" ["/1sxLDIs"; "M10GlQGn"]
            (default EmptyString (Demo.base64_decode "eAEBBwD4"))
            [default EmptyString (Demo.base64_decode "/1sxLDIs");
             default EmptyString (Demo.base64_decode "M10GlQGn")]
            "[1,2,3]" (JArr [JNum 1; JNum 2; JNum 3]) 3%nat _
            _ _ _ _ _ _ _ _ _ _ _ _ _).
  - repeat split. eexists. repeat split.
  - eexists. split; reflexivity.
  - repeat split; eexists; repeat split.
  - done.
  - reflexivity.
  - repeat constructor.
  - reflexivity.
  - vm_compute. discriminate.
  - reflexivity.
  - reflexivity.
  - reflexivity.
  - reflexivity.
  - repeat constructor.
    + intros ky fields frag (Ht & _). discriminate.
    + intros ky fields frag (_ & _ & Hf & Hk & _).
      simpl in Hf, Hk. injection Hf as <-. injection Hk as <-.
      vm_compute. discriminate.
Defined.
